(** * Ingest broker: the HTTP boundary of [broker_app.py]

    A shallow embedding of the Flask view functions of [src/broker_app.py]
    (token check, submission creation, worker dispatch, response shaping)
    and of the spreadsheet tab generator exercised by
    [src/test/service/test_spreadsheet_generator.py].

    Python values are a small inductive type, exceptions are data, and the
    view functions live in a state-and-exception monad over the mutable
    world they touch: the token held by the shared [IngestApi] client, the
    stored spreadsheets, and the chronological trace of the calls made to
    the logger, the ingest client and the [threading] module. *)

From stdpp Require Import base option list gmap strings.
From Stdlib Require Import ZArith Lia Ascii.

Open Scope Z_scope.

(** ** Python values and exceptions *)

#[local] Set Warnings "-register-all".

(** The values that flow through the handlers: [None], booleans, integers,
    [str], lists and dicts.  A dict keeps its insertion order, which is the
    order [json.dumps] renders. *)
Inductive value : Type :=
| VNone
| VBool (b : bool)
| VInt (n : Z)
| VStr (s : string)
| VList (l : list value)
| VDict (d : list (string * value)).

(** The exceptions the handlers can see.  [SpreadsheetUploadError] carries
    the three attributes the handlers read; [OtherError] stands for any
    other subclass of [Exception] raised by an external collaborator, and
    [NonException] for an exception whose class derives from
    [BaseException] but not from [Exception] ([SystemExit],
    [KeyboardInterrupt], [GeneratorExit]). *)
Inductive exn : Type :=
| SpreadsheetUploadError (http_code : Z) (message details : value)
| SubmissionSpreadsheetDoesntExist
| KeyError (key : string)
| BadRequestKeyError (key : string)
| TypeError
| AttributeError
| IndexError
| OtherError (cls : string) (args : string)
| NonException (cls : string) (args : string).

(** [isinstance(e, Exception)]: what an [except Exception] clause catches. *)
Definition is_Exception (e : exn) : bool :=
  match e with
  | NonException _ _ => false
  | _ => true
  end.

Definition is_SpreadsheetUploadError (e : exn) : bool :=
  match e with
  | SpreadsheetUploadError _ _ _ => true
  | _ => false
  end.

Inductive result (A : Type) : Type :=
| Return (a : A)
| Raise (e : exn).
Arguments Return {A} a.
Arguments Raise {A} e.

(** [d[key]] on a dict body. *)
Fixpoint dict_get (d : list (string * value)) (key : string) : result value :=
  match d with
  | [] => Raise (KeyError key)
  | (k, v) :: d' => if String.eqb k key then Return v else dict_get d' key
  end.

(** [v[key]] for a string key: only a dict can be subscripted that way. *)
Definition subscript (v : value) (key : string) : result value :=
  match v with
  | VDict d => dict_get d key
  | _ => Raise TypeError
  end.

(** ** [str.rsplit(sep, 1)] and [list[-1]] *)

(** The split of [s] at its last occurrence of [sep], if there is one. *)
Fixpoint rsplit_once (sep : ascii) (s : string) : option (string * string) :=
  match s with
  | EmptyString => None
  | String c s' =>
      match rsplit_once sep s' with
      | Some (a, b) => Some (String c a, b)
      | None => if Ascii.eqb c sep then Some (EmptyString, s') else None
      end
  end.

(** [s.rsplit(sep, 1)]: at most one split, taken from the right. *)
Definition rsplit1 (sep : ascii) (s : string) : list string :=
  match rsplit_once sep s with
  | Some (a, b) => [a; b]
  | None => [s]
  end.

(** [l[-1]]. *)
Definition index_last {A : Type} (l : list A) : result A :=
  match last l with
  | Some x => Return x
  | None => Raise IndexError
  end.

(** [v.rsplit('/', 1)]: an attribute of [str] only. *)
Definition value_rsplit1 (v : value) (sep : ascii) : result (list string) :=
  match v with
  | VStr s => Return (rsplit1 sep s)
  | _ => Raise AttributeError
  end.

(** [sep] does not occur in [s]. *)
Fixpoint no_char (sep : ascii) (s : string) : bool :=
  match s with
  | EmptyString => true
  | String c s' => negb (Ascii.eqb c sep) && no_char sep s'
  end.

(** ** The request, the world and the external collaborators *)

(** An uploaded file ([werkzeug]'s [FileStorage]). *)
Record FileStorage : Type := {
  filename : string;
  stream : string
}.

(** What the handlers read of [flask.request]: the headers, the uploaded
    files and the form fields, each keyed by its canonical name. *)
Record Request : Type := {
  headers : gmap string string;
  files : gmap string FileStorage;
  form : gmap string string
}.

(** The only target a worker thread is given in this module. *)
Inductive target : Type :=
| spreadsheet_upload_service_upload.

(** [threading.Thread(target=..., args=(submission_resource, file, project_uuid))]. *)
Record Thread : Type := {
  thread_target : target;
  thread_args : value * FileStorage * option string
}.

Inductive level : Type := INFO | ERROR.

(** One call that leaves the handler: to the logger, to the shared ingest
    client or to the [threading] module. *)
Inductive event : Type :=
| EvLog (lvl : level) (msg : string)
| EvSetToken (token : option string)
| EvCreateSubmission (update_submission : bool)
| EvThreadStart (t : Thread)
| EvThreadJoin (t : Thread).

(** A stored spreadsheet: what [retrieve] hands back under the keys
    [name] and [blob]. *)
Record Spreadsheet : Type := {
  name : string;
  blob : string
}.

(** The mutable world of the module: the token field of the process-wide
    [ingest_api] client, the spreadsheets kept by the storage service, and
    the calls made so far, oldest first. *)
Record World : Type := {
  ingest_api_token : option string;
  storage : gmap string Spreadsheet;
  trace : list event
}.

(** The collaborators outside this module, taken as an interface:
    [flask.json.dumps], [IngestApi.create_submission] (its outcome may depend
    on the flag and on the token the client holds), [str] of an exception,
    the rendering of a value inside an f-string, and
    [traceback.format_exc] for the exception being handled. *)
Class External : Type := {
  json_dumps : value -> string;
  create_submission : bool -> option string -> result value;
  str_exn : exn -> string;
  format_value : value -> string;
  format_exc : exn -> string
}.

(** ** The handler monad: state and exceptions *)

Definition M (A : Type) : Type := World -> result A * World.

#[global] Instance M_ret : MRet M := fun A a w => (Return a, w).

#[global] Instance M_bind : MBind M := fun A B f m w =>
  match m w with
  | (Return a, w') => f a w'
  | (Raise e, w') => (Raise e, w')
  end.

Definition raise {A : Type} (e : exn) : M A := fun w => (Raise e, w).

(** A partial pure computation inside a handler. *)
Definition lift {A : Type} (r : result A) : M A := fun w => (r, w).

Definition emit (e : event) : M unit := fun w =>
  (Return tt, {| ingest_api_token := ingest_api_token w;
                 storage := storage w;
                 trace := trace w ++ [e] |}).

(** [try: body / except SpreadsheetUploadError / except Exception / else]:
    the [else] suite runs after a body that raised nothing, and is not
    covered by the handlers; an exception that is no instance of
    [Exception] is caught by neither clause. *)
Definition try_except_else {A B : Type} (body : M A)
    (on_upload_error : Z -> value -> value -> M B)
    (on_exception : exn -> M B) (orelse : A -> M B) : M B := fun w =>
  match body w with
  | (Return a, w') => orelse a w'
  | (Raise (SpreadsheetUploadError c m d), w') => on_upload_error c m d w'
  | (Raise e, w') => if is_Exception e then on_exception e w' else (Raise e, w')
  end.

(** *** The logger, the ingest client and the threading module *)

Definition logger_info (msg : string) : M unit := emit (EvLog INFO msg).
Definition logger_error (msg : string) : M unit := emit (EvLog ERROR msg).

(** [ingest_api.set_token(token)]: the shared client keeps the token. *)
Definition set_token (token : option string) : M unit := fun w =>
  emit (EvSetToken token)
       {| ingest_api_token := token; storage := storage w; trace := trace w |}.

(** [ingest_api.create_submission(update_submission=is_update)]. *)
Definition api_create_submission `{External} (is_update : bool) : M value := fun w =>
  (emit (EvCreateSubmission is_update);;
   lift (create_submission is_update (ingest_api_token w))) w.

(** [thread.start()]: the worker is handed to the runtime; the caller goes on. *)
Definition thread_start (t : Thread) : M unit := emit (EvThreadStart t).

(** [thread.join()]: part of the threading interface, used nowhere below. *)
Definition thread_join (t : Thread) : M unit := emit (EvThreadJoin t).

(** [request.files[key]]: a missing key is a [BadRequestKeyError]. *)
Definition files_getitem (request : Request) (key : string) : result FileStorage :=
  match files request !! key with
  | Some f => Return f
  | None => Raise (BadRequestKeyError key)
  end.

(** ** The view functions of [broker_app.py] *)

Definition SPREADSHEET_UPLOAD_MESSAGE : string :=
  "We’ve got your spreadsheet, and we’re currently importing and validating the data.Nothing else for you to do - check back later.".

Definition SPREADSHEET_UPLOAD_MESSAGE_ERROR : string :=
  "We experienced a problem while uploading your spreadsheet".

(** [app.response_class(response=..., status=..., mimetype=...)]: the
    [response] argument is kept as the Python value that was passed. *)
Record Response : Type := {
  response : value;
  status : Z;
  mimetype : string
}.

(** What a view hands back to Flask: a response object, or the result of
    [send_file]. *)
Inductive view_result : Type :=
| AppResponse (r : Response)
| SendFile (data : string) (file_mimetype : string) (as_attachment : bool)
           (attachment_filename : string).

(** The body Werkzeug sends for a response object: a [str] is the body;
    any other value is taken as an iterable of chunks, so a dict sends its
    keys and a list of strings sends their concatenation. *)
Fixpoint join_chunks (l : list value) : result string :=
  match l with
  | [] => Return ""
  | VStr s :: l' =>
      match join_chunks l' with
      | Return rest => Return (s +:+ rest)
      | Raise e => Raise e
      end
  | _ :: _ => Raise TypeError
  end.

Definition get_data (r : Response) : result string :=
  match response r with
  | VStr s => Return s
  | VDict d => Return (String.concat "" (map fst d))
  | VList l => join_chunks l
  | _ => Raise TypeError
  end.

(** Modelled from the spec: [SpreadsheetStorageService.retrieve] is not
    among the sources; the spec says a stored spreadsheet is retrievable by
    submission uuid and that none being stored is the 404 case, which the
    view catches as [SubmissionSpreadsheetDoesntExist]. *)
Definition retrieve (submission_uuid : string) : M Spreadsheet := fun w =>
  match storage w !! submission_uuid with
  | Some s => (Return s, w)
  | None => (Raise SubmissionSpreadsheetDoesntExist, w)
  end.

Definition get_submission_spreadsheet (submission_uuid : string) : M view_result := fun w =>
  match
    (spreadsheet ← retrieve submission_uuid;
     let spreadsheet_name := name spreadsheet in
     let spreadsheet_blob := blob spreadsheet in
     mret (SendFile spreadsheet_blob "application/octet-stream" true spreadsheet_name)) w
  with
  | (Raise SubmissionSpreadsheetDoesntExist, w') =>
      (Return (AppResponse
         {| response :=
              VDict [("message",
                      VStr ("No spreadsheet found for submission with uuid " +:+ submission_uuid))];
            status := 404;
            mimetype := "application/json" |}), w')
  | other => other
  end.

Section Upload.
Context `{External}.

Definition _failure_response (status_code : Z) (message details : value) : M Response :=
  let data := VDict [("message", message); ("details", details)] in
  mret {| response := VStr (json_dumps data);
          status := status_code;
          mimetype := "application/json" |}.

Definition _success_response (submission_resource : value) : M Response :=
  uuid_field ← lift (subscript submission_resource "uuid");
  submission_uuid ← lift (subscript uuid_field "uuid");
  links ← lift (subscript submission_resource "_links");
  self ← lift (subscript links "self");
  submission_url ← lift (subscript self "href");
  parts ← lift (value_rsplit1 submission_url "/");
  submission_id ← lift (index_last parts);
  let data :=
    VDict [("message", VStr SPREADSHEET_UPLOAD_MESSAGE);
           ("details", VDict [("submission_url", submission_url);
                              ("submission_uuid", submission_uuid);
                              ("submission_id", VStr submission_id)])] in
  mret {| response := VStr (json_dumps data);
          status := 201;
          mimetype := "application/json" |}.

Definition _set_token (request : Request) : M string :=
  logger_info "Checking token";;
  let token := headers request !! "Authorization" in
  set_token token;;
  match token with
  | None =>
      raise (SpreadsheetUploadError 401
               (VStr "An authentication token must be supplied when uploading a spreadsheet")
               (VStr ""))
  | Some t => mret t
  end.

Definition _async_upload (request : Request) (is_update : bool) : M value :=
  submission_resource ← api_create_submission is_update;
  links ← lift (subscript submission_resource "_links");
  self ← lift (subscript links "self");
  href ← lift (subscript self "href");
  logger_info ("Created Submission: " +:+ format_value href);;
  file ← lift (files_getitem request "file");
  let thread :=
    {| thread_target := spreadsheet_upload_service_upload;
       thread_args := (submission_resource, file, form request !! "projectUuid") |} in
  thread_start thread;;
  mret submission_resource.

(** The [try] suite of [_upload_spreadsheet]. *)
Definition upload_try_suite (request : Request) (is_update : bool) : M value :=
  _set_token request;;
  logger_info "Uploading spreadsheet!";;
  _async_upload request is_update.

Definition _upload_spreadsheet (request : Request) (is_update : bool) : M Response :=
  try_except_else
    (upload_try_suite request is_update)
    (fun http_code message details => _failure_response http_code message details)
    (fun err =>
       logger_error (format_exc err);;
       _failure_response 500 (VStr SPREADSHEET_UPLOAD_MESSAGE_ERROR) (VStr (str_exn err)))
    (fun submission_resource => _success_response submission_resource).

(** [POST /api_upload] *)
Definition upload_spreadsheet (request : Request) : M Response :=
  _upload_spreadsheet request false.

(** [POST /api_upload_update] *)
Definition upload_update_spreadsheet (request : Request) : M Response :=
  _set_token request;;
  _upload_spreadsheet request true.

(** The two upload rules registered with [app.route], and their views. *)
Inductive upload_rule : Type :=
| api_upload
| api_upload_update.

Definition upload_view (rule : upload_rule) : Request -> M Response :=
  match rule with
  | api_upload => upload_spreadsheet
  | api_upload_update => upload_update_spreadsheet
  end.

(** The [update_submission] flag a rule ends up passing to the ingest client. *)
Definition is_update_of (rule : upload_rule) : bool :=
  match rule with
  | api_upload => false
  | api_upload_update => true
  end.

End Upload.

(** *** Vocabulary for the statements below *)

#[global] Instance result_ret : MRet result := fun A a => Return a.

#[global] Instance result_bind : MBind result := fun A B f r =>
  match r with
  | Return a => f a
  | Raise e => Raise e
  end.

(** [resource['_links']['self']['href']] *)
Definition self_href (resource : value) : result value :=
  links ← subscript resource "_links";
  self ← subscript links "self";
  subscript self "href".

(** [resource['uuid']['uuid']] *)
Definition uuid_of (resource : value) : result value :=
  uuid_field ← subscript resource "uuid";
  subscript uuid_field "uuid".

(** The world right after [_set_token] has run on a request whose
    [Authorization] header is [token]. *)
Definition token_checked (token : option string) (w : World) : World :=
  {| ingest_api_token := token;
     storage := storage w;
     trace := trace w ++ [EvLog INFO "Checking token"; EvSetToken token] |}.

(** The world with more calls appended to its trace. *)
Definition with_events (w : World) (events : list event) : World :=
  {| ingest_api_token := ingest_api_token w;
     storage := storage w;
     trace := trace w ++ events |}.

(** The worker thread [_async_upload] builds for a request. *)
Definition worker_of (request : Request) (resource : value) (file : FileStorage) : Thread :=
  {| thread_target := spreadsheet_upload_service_upload;
     thread_args := (resource, file, form request !! "projectUuid") |}.

(** The calls of a [try] suite that got as far as starting the worker. *)
Definition dispatch_events `{External} (request : Request) (is_update : bool)
    (resource href : value) (file : FileStorage) : list event :=
  [EvLog INFO "Uploading spreadsheet!";
   EvCreateSubmission is_update;
   EvLog INFO ("Created Submission: " +:+ format_value href);
   EvThreadStart (worker_of request resource file)].

(** The last piece of [s.rsplit(sep, 1)], written out. *)
Definition last_segment (sep : ascii) (s : string) : string :=
  match rsplit_once sep s with
  | Some (_, b) => b
  | None => s
  end.

(** The success response for a submission with the given link, uuid and id. *)
Definition success_response_of `{External} (submission_url submission_uuid : value)
    (submission_id : string) : Response :=
  {| response :=
       VStr (json_dumps
               (VDict [("message", VStr SPREADSHEET_UPLOAD_MESSAGE);
                       ("details", VDict [("submission_url", submission_url);
                                          ("submission_uuid", submission_uuid);
                                          ("submission_id", VStr submission_id)])]));
     status := 201;
     mimetype := "application/json" |}.

(** The world in which a rule enters the shared body [_upload_spreadsheet]:
    the update rule has checked the token once by then. *)
Definition entry_world (rule : upload_rule) (request : Request) (w : World) : World :=
  match rule with
  | api_upload => w
  | api_upload_update => token_checked (headers request !! "Authorization") w
  end.

(** No [ERROR] record among the events. *)
Definition no_error_logged (events : list event) : bool :=
  forallb (fun e => match e with EvLog ERROR _ => false | _ => true end) events.

(** The 401 error raised for a missing token. *)
Definition missing_token_error : exn :=
  SpreadsheetUploadError 401
    (VStr "An authentication token must be supplied when uploading a spreadsheet")
    (VStr "").

(** ** The spreadsheet tab generator *)

Module SpreadsheetGenerator.

Record LinkSpec : Type := {
  linked_types : list string;
  linked_multivalue_types : list string
}.

Inductive TypeSpec : Type := mkTypeSpec {
  type_name : string;
  own_fields : list string;
  nested_specs : list TypeSpec;
  is_multivalue : bool;
  link_spec : LinkSpec
}.

Record Column : Type := {
  path : string;
  is_link : bool
}.

Record Tab : Type := {
  columns : list Column
}.

(** Modelled from the spec: [spreadsheet_generator.py] is not among the
    sources (only its test is).  [context_to_path_string] joins the context
    segments with a dot; the empty context gives the empty string and a
    single segment is returned unchanged. *)
Fixpoint context_to_path_string (context : list string) : string :=
  match context with
  | [] => ""
  | segment :: rest =>
      match rest with
      | [] => segment
      | _ :: _ => segment +:+ "." +:+ context_to_path_string rest
      end
  end.

(** Modelled from the spec: one column per own field, its path the context
    extended with the field name; then the columns of every nested spec,
    under the context extended with the nested type's name. *)
Fixpoint columns_for (context : list string) (spec : TypeSpec) : list Column :=
  map (fun field_name =>
         {| path := context_to_path_string (context ++ [field_name]);
            is_link := false |})
      (own_fields spec)
  ++ flat_map (fun nested => columns_for (context ++ [type_name nested]) nested)
       (nested_specs spec).

(** Modelled from the spec: the link column of a linked type points at the
    identifying field of that type. *)
Definition link_column (linked_type : string) : Column :=
  {| path := context_to_path_string [linked_type; "biomaterial_core"; "biomaterial_id"];
     is_link := true |}.

(** Modelled from the spec: [tab_for_type] of [spreadsheet_generator.py],
    which is not among the sources: the flattened field columns, then one
    link column per entry of [linked_types]; the multivalue link types get
    the same columns. *)
Definition tab_for_type (spec : TypeSpec) : Tab :=
  {| columns :=
       columns_for [] spec
       ++ map link_column (linked_types (link_spec spec))
       ++ map link_column (linked_multivalue_types (link_spec spec)) |}.

End SpreadsheetGenerator.

(** ** A concrete environment, for running the handlers *)

(** A small renderer in the shape of [json.dumps]: enough to run the
    handlers on examples (strings are copied without escaping). *)
Fixpoint sample_dumps (v : value) : string :=
  match v with
  | VNone => "null"
  | VBool true => "true"
  | VBool false => "false"
  | VInt n => if Z.eqb n 0 then "0" else "<int>"
  | VStr s => String "034" s +:+ String "034" ""
  | VList l =>
      "[" +:+ String.concat ", " (map sample_dumps l) +:+ "]"
  | VDict d =>
      "{" +:+ String.concat ", "
                (map (fun kv => String "034" (fst kv) +:+ String "034" ": " +:+ sample_dumps (snd kv)) d)
          +:+ "}"
  end.

Definition sample_submission : value :=
  VDict [("uuid", VDict [("uuid", VStr "6f2d-41c7")]);
         ("_links",
          VDict [("self",
                  VDict [("href", VStr "http://api.ingest/submissionEnvelopes/5d1c9a")])])].

(** A submission resource as a broken ingest service could send it: the
    self link is there, the uuid is not. *)
Definition submission_without_uuid : value :=
  VDict [("_links",
          VDict [("self",
                  VDict [("href", VStr "http://api.ingest/submissionEnvelopes/5d1c9a")])])].

Definition sample_external (created : result value) : External :=
  {| json_dumps := sample_dumps;
     create_submission := fun _ _ => created;
     str_exn := fun e =>
       match e with
       | KeyError k => "'" +:+ k +:+ "'"
       | OtherError _ a => a
       | _ => ""
       end;
     format_value := fun v => match v with VStr s => s | _ => sample_dumps v end;
     format_exc := fun e => "Traceback (most recent call last): " +:+
       match e with
       | OtherError c a => c +:+ ": " +:+ a
       | _ => "..."
       end |}.

Definition sample_file : FileStorage :=
  {| filename := "metadata.xlsx"; stream := "PK" |}.

Definition request_with_token : Request :=
  {| headers := {[ "Authorization" := "Bearer abc" ]};
     files := {[ "file" := sample_file ]};
     form := {[ "projectUuid" := "p-1" ]} |}.

Definition request_without_token : Request :=
  {| headers := ∅;
     files := {[ "file" := sample_file ]};
     form := ∅ |}.

(** A world in which an earlier request left its token on the shared client. *)
Definition world_with_old_token : World :=
  {| ingest_api_token := Some "Bearer old"; storage := ∅; trace := [] |}.

(** ** The index view and the except clauses, for the further properties *)

(** What [index] hands back to Flask: [redirect(location, code)] or a
    response object. *)
Inductive index_result : Type :=
| IndexRedirect (location : string) (code : Z)
| IndexResponse (r : Response).

(** [GET /]: [os.environ.get('INGEST_UI')] is tested for truth, so an unset
    variable and an empty one both fall through to the liveness message. *)
Definition index `{External} (environ : gmap string string) : index_result :=
  match environ !! "INGEST_UI" with
  | Some (String c rest) => IndexRedirect (String c rest) 302
  | _ =>
      IndexResponse
        {| response := VStr (json_dumps (VDict [("message", VStr "Ingest Broker API is running!")]));
           status := 200;
           mimetype := "application/json" |}
  end.

(** The two [except] clauses of [_upload_spreadsheet], as one function of
    the exception raised by the [try] suite; what neither clause catches is
    raised again. *)
Definition upload_except `{External} (err : exn) : M Response :=
  match err with
  | SpreadsheetUploadError http_code message details =>
      _failure_response http_code message details
  | _ =>
      if is_Exception err then
        logger_error (format_exc err);;
        _failure_response 500 (VStr SPREADSHEET_UPLOAD_MESSAGE_ERROR) (VStr (str_exn err))
      else raise err
  end.

(** The world in which [_async_upload] starts, for a request carrying [t]. *)
Definition suite_world (rule : upload_rule) (request : Request) (t : string) (w : World) : World :=
  with_events (token_checked (Some t) (entry_world rule request w))
    [EvLog INFO "Uploading spreadsheet!"].

(** The calls appended to the trace between two worlds. *)
Definition calls_since (w w' : World) : list event :=
  drop (length (trace w)) (trace w').

Definition is_thread_start (e : event) : bool :=
  match e with EvThreadStart _ => true | _ => false end.

Definition is_create_submission (e : event) : bool :=
  match e with EvCreateSubmission _ => true | _ => false end.

(** What the [except] clauses log for an exception. *)
Definition error_log `{External} (err : exn) : list event :=
  if is_SpreadsheetUploadError err then []
  else if is_Exception err then [EvLog ERROR (format_exc err)]
  else [].

(** The calls an upload view makes for a request, read off the views: the
    token check(s), then, with a token, the creation of the submission and
    what follows it. *)
Definition upload_calls `{External} (rule : upload_rule) (request : Request) : list event :=
  match headers request !! "Authorization" with
  | None => [EvLog INFO "Checking token"; EvSetToken None]
  | Some t =>
      match rule with
      | api_upload => []
      | api_upload_update => [EvLog INFO "Checking token"; EvSetToken (Some t)]
      end
      ++ [EvLog INFO "Checking token"; EvSetToken (Some t);
          EvLog INFO "Uploading spreadsheet!";
          EvCreateSubmission (is_update_of rule)]
      ++ match create_submission (is_update_of rule) (Some t) with
         | Raise err => error_log err
         | Return resource =>
             match self_href resource with
             | Raise err => error_log err
             | Return href =>
                 EvLog INFO ("Created Submission: " +:+ format_value href)
                 :: match files request !! "file" with
                    | None => error_log (BadRequestKeyError "file")
                    | Some file => [EvThreadStart (worker_of request resource file)]
                    end
             end
         end
  end.

(** ** Threads and waiting *)

(** One step of the process while a request is served: a call made by the
    view, the view returning its response, or a worker thread reaching the
    end of its run. *)
Inductive step : Type :=
| ViewCalls (e : event)
| ViewReturns
| WorkerEnds (t : Thread).

(** Whether a sequence of steps can happen, given the threads started and
    the threads ended so far.  [Thread.start] hands the thread over and goes
    on; [Thread.join] is the one call that waits, so it can happen only once
    its thread has ended; a worker can end only after it was started. *)
Fixpoint can_happen (started ended : list Thread) (steps : list step) : Prop :=
  match steps with
  | [] => True
  | ViewCalls (EvThreadStart t) :: rest => can_happen (t :: started) ended rest
  | ViewCalls (EvThreadJoin t) :: rest => t ∈ ended /\ can_happen started ended rest
  | ViewCalls _ :: rest => can_happen started ended rest
  | ViewReturns :: rest => can_happen started ended rest
  | WorkerEnds t :: rest => t ∈ started /\ can_happen started (t :: ended) rest
  end.

(** * Properties *)

(** ** The token check *)

Section TokenCheck.
Context `{External}.

Lemma _set_token_run (request : Request) (w : World) :
  _set_token request w =
    (match headers request !! "Authorization" with
     | Some t => Return t
     | None => Raise missing_token_error
     end,
     token_checked (headers request !! "Authorization") w).
Proof.
  unfold _set_token, token_checked, mbind, M_bind, logger_info, set_token, emit.
  simpl. rewrite <- app_assoc. simpl.
  destruct (headers request !! "Authorization"); reflexivity.
Qed.

Lemma _set_token_some (request : Request) (w : World) (t : string) :
  headers request !! "Authorization" = Some t ->
  _set_token request w = (Return t, token_checked (Some t) w).
Proof. intros Ht. rewrite _set_token_run, Ht. reflexivity. Qed.

Lemma _set_token_none (request : Request) (w : World) :
  headers request !! "Authorization" = None ->
  _set_token request w = (Raise missing_token_error, token_checked None w).
Proof. intros Ht. rewrite _set_token_run, Ht. reflexivity. Qed.

(** Without a token the [try] suite stops at the token check. *)
Lemma upload_try_suite_none (request : Request) (is_update : bool) (w : World) :
  headers request !! "Authorization" = None ->
  upload_try_suite request is_update w = (Raise missing_token_error, token_checked None w).
Proof.
  intros Ht. unfold upload_try_suite, mbind, M_bind.
  rewrite (_set_token_none _ _ Ht). reflexivity.
Qed.

(** The shared body turns the missing token into the 401 response. *)
Lemma _upload_spreadsheet_none (request : Request) (is_update : bool) (w : World) :
  headers request !! "Authorization" = None ->
  _upload_spreadsheet request is_update w =
    (Return {| response :=
                 VStr (json_dumps
                         (VDict [("message",
                                  VStr "An authentication token must be supplied when uploading a spreadsheet");
                                 ("details", VStr "")]));
               status := 401;
               mimetype := "application/json" |},
     token_checked None w).
Proof.
  intros Ht. unfold _upload_spreadsheet, try_except_else.
  rewrite (upload_try_suite_none _ _ _ Ht). reflexivity.
Qed.

(** With a token, the update view is the shared body run after one more
    token check. *)
Lemma upload_update_spreadsheet_some (request : Request) (w : World) (t : string) :
  headers request !! "Authorization" = Some t ->
  upload_update_spreadsheet request w =
    _upload_spreadsheet request true (token_checked (Some t) w).
Proof.
  intros Ht. unfold upload_update_spreadsheet, mbind at 1, M_bind at 1.
  rewrite (_set_token_some _ _ _ Ht). reflexivity.
Qed.

(** Without one, its first token check raises outside any [try]. *)
Lemma upload_update_spreadsheet_none (request : Request) (w : World) :
  headers request !! "Authorization" = None ->
  upload_update_spreadsheet request w = (Raise missing_token_error, token_checked None w).
Proof.
  intros Ht. unfold upload_update_spreadsheet, mbind at 1, M_bind at 1.
  rewrite (_set_token_none _ _ Ht). reflexivity.
Qed.

End TokenCheck.

(** ** Submission creation and worker dispatch *)

Section Dispatch.
Context `{External}.

Lemma with_events_app (w : World) (l1 l2 : list event) :
  with_events (with_events w l1) l2 = with_events w (l1 ++ l2).
Proof. unfold with_events. simpl. rewrite <- app_assoc. reflexivity. Qed.

Lemma emit_run (e : event) (w : World) : emit e w = (Return tt, with_events w [e]).
Proof. reflexivity. Qed.

(** Every way [_async_upload] can go, with the calls it has made by then. *)
Lemma _async_upload_run (request : Request) (is_update : bool) (w : World) :
  _async_upload request is_update w =
    match create_submission is_update (ingest_api_token w) with
    | Raise e => (Raise e, with_events w [EvCreateSubmission is_update])
    | Return resource =>
        match self_href resource with
        | Raise e => (Raise e, with_events w [EvCreateSubmission is_update])
        | Return href =>
            match files request !! "file" with
            | None =>
                (Raise (BadRequestKeyError "file"),
                 with_events w [EvCreateSubmission is_update;
                                EvLog INFO ("Created Submission: " +:+ format_value href)])
            | Some file =>
                (Return resource,
                 with_events w [EvCreateSubmission is_update;
                                EvLog INFO ("Created Submission: " +:+ format_value href);
                                EvThreadStart (worker_of request resource file)])
            end
        end
    end.
Proof.
  unfold _async_upload, api_create_submission, self_href, files_getitem, worker_of,
    thread_start, logger_info, lift, with_events.
  unfold mbind, M_bind, result_bind, mret, M_ret, emit. simpl.
  destruct (create_submission is_update (ingest_api_token w)) as [resource|e];
    [|reflexivity].
  destruct (subscript resource "_links") as [links|e]; [|reflexivity].
  destruct (subscript links "self") as [self|e]; [|reflexivity].
  destruct (subscript self "href") as [href|e]; [|reflexivity].
  simpl.
  destruct (files request !! "file") as [file|]; simpl;
    rewrite <- ?app_assoc; reflexivity.
Qed.

(** With a token, the [try] suite is [_async_upload] run after the token
    check and the log line. *)
Lemma upload_try_suite_some (request : Request) (is_update : bool) (w : World) (t : string) :
  headers request !! "Authorization" = Some t ->
  upload_try_suite request is_update w =
    _async_upload request is_update
      (with_events (token_checked (Some t) w) [EvLog INFO "Uploading spreadsheet!"]).
Proof.
  intros Ht. unfold upload_try_suite, mbind at 1, M_bind at 1.
  rewrite (_set_token_some _ _ _ Ht).
  unfold mbind, M_bind, logger_info. rewrite emit_run. reflexivity.
Qed.

Lemma upload_try_suite_dispatched (request : Request) (is_update : bool) (w : World)
    (t : string) (resource href : value) (file : FileStorage) :
  headers request !! "Authorization" = Some t ->
  create_submission is_update (Some t) = Return resource ->
  self_href resource = Return href ->
  files request !! "file" = Some file ->
  upload_try_suite request is_update w =
    (Return resource,
     with_events (token_checked (Some t) w)
       (dispatch_events request is_update resource href file)).
Proof.
  intros Ht Hc Hh Hf.
  rewrite (upload_try_suite_some _ _ _ _ Ht), _async_upload_run. simpl.
  rewrite Hc, Hh, Hf, with_events_app. reflexivity.
Qed.

(** A [try] suite that returns a resource went through every step. *)
Lemma upload_try_suite_returns (request : Request) (is_update : bool) (w w' : World)
    (resource : value) :
  upload_try_suite request is_update w = (Return resource, w') ->
  exists t href file,
    headers request !! "Authorization" = Some t /\
    create_submission is_update (Some t) = Return resource /\
    self_href resource = Return href /\
    files request !! "file" = Some file /\
    w' = with_events (token_checked (Some t) w)
           (dispatch_events request is_update resource href file).
Proof.
  intros Hrun.
  destruct (headers request !! "Authorization") as [t|] eqn:Ht.
  - rewrite (upload_try_suite_some _ _ _ _ Ht), _async_upload_run in Hrun.
    simpl in Hrun.
    destruct (create_submission is_update (Some t)) as [r|e] eqn:Hc; [|discriminate].
    destruct (self_href r) as [href|e] eqn:Hh; [|discriminate].
    destruct (files request !! "file") as [file|] eqn:Hf; [|discriminate].
    injection Hrun as Hr Hw. subst r.
    exists t, href, file. rewrite with_events_app in Hw.
    repeat split; try assumption. symmetry. exact Hw.
  - rewrite (upload_try_suite_none _ _ _ Ht) in Hrun. discriminate.
Qed.

End Dispatch.

(** ** Splitting at the last separator *)

Lemma rsplit_once_None (sep : ascii) (s : string) :
  rsplit_once sep s = None <-> no_char sep s = true.
Proof.
  induction s as [|c s IH]; simpl; [tauto|].
  destruct (rsplit_once sep s) as [[a b]|].
  - split; [discriminate|]. intros Hn.
    apply andb_true_iff in Hn as [_ Hn]. apply IH in Hn. discriminate.
  - destruct (Ascii.eqb c sep); simpl.
    + split; discriminate.
    + split; intros _; [apply IH|]; reflexivity.
Qed.

Lemma rsplit_once_Some (sep : ascii) (s a b : string) :
  rsplit_once sep s = Some (a, b) ->
  s = a +:+ String sep b /\ no_char sep b = true.
Proof.
  revert a b. induction s as [|c s IH]; simpl; intros a b Hs; [discriminate|].
  destruct (rsplit_once sep s) as [[a' b']|] eqn:Hr.
  - injection Hs as <- <-. destruct (IH a' b' eq_refl) as [-> Hb].
    split; [reflexivity|exact Hb].
  - destruct (Ascii.eqb c sep) eqn:Hc; [|discriminate].
    injection Hs as <- <-. apply Ascii.eqb_eq in Hc as ->.
    split; [reflexivity|]. apply rsplit_once_None. exact Hr.
Qed.

Lemma rsplit_once_app (sep : ascii) (a b : string) :
  no_char sep b = true ->
  rsplit_once sep (a +:+ String sep b) = Some (a, b).
Proof.
  intros Hb. induction a as [|c a IH]; simpl.
  - apply rsplit_once_None in Hb. rewrite Hb, Ascii.eqb_refl. reflexivity.
  - rewrite IH. reflexivity.
Qed.

Lemma index_last_rsplit1 (sep : ascii) (s : string) :
  index_last (rsplit1 sep s) = Return (last_segment sep s).
Proof.
  unfold index_last, rsplit1, last_segment.
  destruct (rsplit_once sep s) as [[a b]|]; reflexivity.
Qed.

(** The last segment holds no separator, and is what follows the last one. *)
Lemma last_segment_spec (sep : ascii) (s : string) :
  no_char sep (last_segment sep s) = true /\
  ((exists prefix, s = prefix +:+ String sep (last_segment sep s)) \/
   (no_char sep s = true /\ last_segment sep s = s)).
Proof.
  unfold last_segment. destruct (rsplit_once sep s) as [[a b]|] eqn:Hr.
  - apply rsplit_once_Some in Hr as [-> Hb]. split; [exact Hb|].
    left. exists a. reflexivity.
  - apply rsplit_once_None in Hr. split; [exact Hr|]. right. split; [exact Hr|reflexivity].
Qed.

Lemma last_segment_app (sep : ascii) (a b : string) :
  no_char sep b = true -> last_segment sep (a +:+ String sep b) = b.
Proof. intros Hb. unfold last_segment. rewrite (rsplit_once_app _ _ _ Hb). reflexivity. Qed.

(** ** The responses *)

Section Responses.
Context `{External}.

(** Every way [_success_response] can go.  It touches nothing of the world. *)
Lemma _success_response_run (resource : value) (w : World) :
  _success_response resource w =
    (match uuid_of resource with
     | Raise e => Raise e
     | Return submission_uuid =>
         match self_href resource with
         | Raise e => Raise e
         | Return (VStr url) =>
             Return (success_response_of (VStr url) submission_uuid (last_segment "/" url))
         | Return _ => Raise AttributeError
         end
     end, w).
Proof.
  unfold _success_response, uuid_of, self_href, lift, success_response_of.
  unfold mbind, M_bind, result_bind, mret, M_ret.
  destruct (subscript resource "uuid") as [uuid_field|e]; [|reflexivity].
  destruct (subscript uuid_field "uuid") as [submission_uuid|e]; [|reflexivity].
  destruct (subscript resource "_links") as [links|e]; [|reflexivity].
  destruct (subscript links "self") as [self|e]; [|reflexivity].
  destruct (subscript self "href") as [href|e]; [|reflexivity].
  destruct href; try reflexivity.
  unfold value_rsplit1. rewrite index_last_rsplit1. reflexivity.
Qed.

(** A success response, read back. *)
Lemma _success_response_returns (resource : value) (w w' : World) (resp : Response) :
  _success_response resource w = (Return resp, w') ->
  exists url submission_uuid,
    self_href resource = Return (VStr url) /\
    uuid_of resource = Return submission_uuid /\
    resp = success_response_of (VStr url) submission_uuid (last_segment "/" url) /\
    w' = w.
Proof.
  rewrite _success_response_run. intros Hrun.
  destruct (uuid_of resource) as [submission_uuid|e]; [|discriminate].
  destruct (self_href resource) as [href|e]; [|discriminate].
  destruct href as [| | |url| |]; try discriminate.
  injection Hrun as <- <-. exists url, submission_uuid. repeat split.
Qed.

(** The shared body after a [try] suite that raised nothing: the [else]
    suite alone decides the outcome. *)
Lemma _upload_spreadsheet_else (request : Request) (is_update : bool) (w w' : World)
    (resource : value) :
  upload_try_suite request is_update w = (Return resource, w') ->
  _upload_spreadsheet request is_update w = _success_response resource w'.
Proof.
  intros Hrun. unfold _upload_spreadsheet, try_except_else. rewrite Hrun. reflexivity.
Qed.

(** The shared body after a [try] suite that raised an upload error. *)
Lemma _upload_spreadsheet_upload_error (request : Request) (is_update : bool)
    (w w' : World) (c : Z) (m d : value) :
  upload_try_suite request is_update w = (Raise (SpreadsheetUploadError c m d), w') ->
  _upload_spreadsheet request is_update w =
    (Return {| response := VStr (json_dumps (VDict [("message", m); ("details", d)]));
               status := c;
               mimetype := "application/json" |}, w').
Proof.
  intros Hrun. unfold _upload_spreadsheet, try_except_else. rewrite Hrun. reflexivity.
Qed.

(** The shared body after a [try] suite that raised another [Exception]. *)
Lemma _upload_spreadsheet_exception (request : Request) (is_update : bool)
    (w w' : World) (err : exn) :
  upload_try_suite request is_update w = (Raise err, w') ->
  is_Exception err = true ->
  is_SpreadsheetUploadError err = false ->
  _upload_spreadsheet request is_update w =
    (Return {| response :=
                 VStr (json_dumps
                         (VDict [("message", VStr SPREADSHEET_UPLOAD_MESSAGE_ERROR);
                                 ("details", VStr (str_exn err))]));
               status := 500;
               mimetype := "application/json" |},
     with_events w' [EvLog ERROR (format_exc err)]).
Proof.
  intros Hrun Hex Hne. unfold _upload_spreadsheet, try_except_else. rewrite Hrun.
  destruct err; try discriminate Hne; try discriminate Hex; reflexivity.
Qed.

(** With a token, each view is the shared body run from its entry world. *)
Lemma upload_view_some (rule : upload_rule) (request : Request) (w : World) (t : string) :
  headers request !! "Authorization" = Some t ->
  upload_view rule request w =
    _upload_spreadsheet request (is_update_of rule) (entry_world rule request w).
Proof.
  intros Ht. destruct rule; simpl.
  - reflexivity.
  - rewrite Ht. apply upload_update_spreadsheet_some. exact Ht.
Qed.

(** On the way to a dispatched worker, a view leaves the world of its
    [try] suite untouched and answers with the [else] suite. *)
Lemma upload_view_dispatched (rule : upload_rule) (request : Request) (w : World)
    (t : string) (resource href : value) (file : FileStorage) :
  headers request !! "Authorization" = Some t ->
  create_submission (is_update_of rule) (Some t) = Return resource ->
  self_href resource = Return href ->
  files request !! "file" = Some file ->
  upload_view rule request w =
    _success_response resource
      (with_events (token_checked (Some t) (entry_world rule request w))
         (dispatch_events request (is_update_of rule) resource href file)).
Proof.
  intros Ht Hc Hh Hf. rewrite (upload_view_some _ _ _ _ Ht).
  apply _upload_spreadsheet_else.
  apply (upload_try_suite_dispatched _ _ _ _ _ _ _ Ht Hc Hh Hf).
Qed.

End Responses.

(** ** The upload endpoints: success *)

(** C5.  An upload request that succeeds — the token is present, the
    ingest API creates the submission, the worker is dispatched, and no
    error is raised synchronously — is answered with status 201 and a JSON
    body made of a [message] and a [details] object whose keys are exactly
    [submission_url], [submission_uuid] and [submission_id].  Every response
    returned on that path has this shape, and a submission resource that
    carries its uuid and a string self link does get that response.  Both
    upload rules are covered. *)
Theorem upload_success_returns_201 `{External} (rule : upload_rule) (request : Request)
    (w : World) (t : string) (resource href : value) (file : FileStorage) :
  headers request !! "Authorization" = Some t ->
  create_submission (is_update_of rule) (Some t) = Return resource ->
  self_href resource = Return href ->
  files request !! "file" = Some file ->
  (forall resp w',
     upload_view rule request w = (Return resp, w') ->
     status resp = 201 /\ mimetype resp = "application/json" /\
     exists submission_url submission_uuid submission_id,
       response resp =
         VStr (json_dumps
                 (VDict [("message", VStr SPREADSHEET_UPLOAD_MESSAGE);
                         ("details", VDict [("submission_url", submission_url);
                                            ("submission_uuid", submission_uuid);
                                            ("submission_id", submission_id)])])))
  /\
  (forall url submission_uuid,
     href = VStr url ->
     uuid_of resource = Return submission_uuid ->
     exists w',
       upload_view rule request w =
         (Return
            {| response :=
                 VStr (json_dumps
                         (VDict [("message", VStr SPREADSHEET_UPLOAD_MESSAGE);
                                 ("details",
                                  VDict [("submission_url", VStr url);
                                         ("submission_uuid", submission_uuid);
                                         ("submission_id", VStr (last_segment "/" url))])]));
               status := 201;
               mimetype := "application/json" |}, w')).
Proof.
  intros Ht Hc Hh Hf.
  rewrite (upload_view_dispatched _ _ _ _ _ _ _ Ht Hc Hh Hf).
  split.
  - intros resp w' Hrun.
    apply _success_response_returns in Hrun as (url & u & _ & _ & -> & _).
    split; [reflexivity|]. split; [reflexivity|].
    exists (VStr url), u, (VStr (last_segment "/" url)). reflexivity.
  - intros url u -> Hu. rewrite _success_response_run, Hu, Hh.
    eexists. reflexivity.
Qed.

Lemma upload_success_returns_201_witness :
  exists w',
    @upload_view (sample_external (Return sample_submission)) api_upload_update
      request_with_token world_with_old_token =
      (Return
         {| response :=
              VStr (sample_dumps
                      (VDict [("message", VStr SPREADSHEET_UPLOAD_MESSAGE);
                              ("details",
                               VDict [("submission_url",
                                       VStr "http://api.ingest/submissionEnvelopes/5d1c9a");
                                      ("submission_uuid", VStr "6f2d-41c7");
                                      ("submission_id", VStr "5d1c9a")])]));
            status := 201;
            mimetype := "application/json" |}, w').
Proof.
  refine (proj2 (@upload_success_returns_201 (sample_external (Return sample_submission))
                   api_upload_update request_with_token world_with_old_token
                   "Bearer abc" sample_submission
                   (VStr "http://api.ingest/submissionEnvelopes/5d1c9a") sample_file
                   _ _ _ _)
                _ (VStr "6f2d-41c7") _ _);
    vm_compute; reflexivity.
Defined.

(** C10.  In every success response the [submission_id] of the details is
    what follows the last slash of [submission_url], the self link of the
    submission: it holds no slash, and the link is some prefix, a slash and
    the id (a link with no slash at all is its own id). *)
Theorem submission_id_is_last_path_segment `{External} (resource : value) (w w' : World)
    (resp : Response) :
  _success_response resource w = (Return resp, w') ->
  exists url submission_uuid submission_id,
    self_href resource = Return (VStr url) /\
    response resp =
      VStr (json_dumps
              (VDict [("message", VStr SPREADSHEET_UPLOAD_MESSAGE);
                      ("details", VDict [("submission_url", VStr url);
                                         ("submission_uuid", submission_uuid);
                                         ("submission_id", VStr submission_id)])])) /\
    index_last (rsplit1 "/" url) = Return submission_id /\
    no_char "/" submission_id = true /\
    ((exists prefix, url = prefix +:+ "/" +:+ submission_id) \/
     (no_char "/" url = true /\ submission_id = url)).
Proof.
  intros Hrun.
  apply _success_response_returns in Hrun as (url & u & Hh & _ & -> & _).
  exists url, u, (last_segment "/" url).
  destruct (last_segment_spec "/" url) as [Hno Hshape].
  split; [exact Hh|]. split; [reflexivity|].
  split; [apply index_last_rsplit1|]. split; [exact Hno|].
  destruct Hshape as [[prefix Hp]|Hwhole]; [left|right; exact Hwhole].
  exists prefix. exact Hp.
Qed.

Lemma submission_id_is_last_path_segment_witness :
  exists url submission_uuid submission_id,
    self_href sample_submission = Return (VStr url) /\
    response (success_response_of (H := sample_external (Return sample_submission))
                (VStr "http://api.ingest/submissionEnvelopes/5d1c9a")
                (VStr "6f2d-41c7") "5d1c9a") =
      VStr (sample_dumps
              (VDict [("message", VStr SPREADSHEET_UPLOAD_MESSAGE);
                      ("details", VDict [("submission_url", VStr url);
                                         ("submission_uuid", submission_uuid);
                                         ("submission_id", VStr submission_id)])])) /\
    index_last (rsplit1 "/" url) = Return submission_id /\
    no_char "/" submission_id = true /\
    ((exists prefix, url = prefix +:+ "/" +:+ submission_id) \/
     (no_char "/" url = true /\ submission_id = url)).
Proof.
  apply (@submission_id_is_last_path_segment (sample_external (Return sample_submission))
           sample_submission world_with_old_token world_with_old_token).
  vm_compute. reflexivity.
Defined.

(** ** The upload endpoints: order of the calls *)

(** C8.  On a successful upload (token present, submission created with
    its uuid and a string self link, file present) the view returns the 201
    success response, and the calls it has made by then are, in order: the
    token check(s), the log line, the creation of the submission by the
    ingest client, the log of its link, and the start of the worker thread
    on that submission.  The creation comes before the start, the start is
    the last call, and the thread is never joined: every call and the return
    of the response can happen while the worker has not ended. *)
Theorem worker_started_after_creation_and_never_joined `{External} (rule : upload_rule)
    (request : Request) (w : World) (t : string) (resource submission_uuid : value)
    (url : string) (file : FileStorage) :
  headers request !! "Authorization" = Some t ->
  create_submission (is_update_of rule) (Some t) = Return resource ->
  self_href resource = Return (VStr url) ->
  uuid_of resource = Return submission_uuid ->
  files request !! "file" = Some file ->
  exists before between w',
    upload_view rule request w =
      (Return
         {| response :=
              VStr (json_dumps
                      (VDict [("message", VStr SPREADSHEET_UPLOAD_MESSAGE);
                              ("details",
                               VDict [("submission_url", VStr url);
                                      ("submission_uuid", submission_uuid);
                                      ("submission_id", VStr (last_segment "/" url))])]));
            status := 201;
            mimetype := "application/json" |}, w') /\
    trace w' =
      trace w ++ before ++ [EvCreateSubmission (is_update_of rule)] ++ between
        ++ [EvThreadStart (worker_of request resource file)] /\
    (forall e, e ∈ before ++ between ->
       exists lvl msg, e = EvLog lvl msg \/ e = EvSetToken (Some t)) /\
    (forall joined,
       EvThreadJoin joined ∉
         before ++ [EvCreateSubmission (is_update_of rule)] ++ between
           ++ [EvThreadStart (worker_of request resource file)]) /\
    can_happen [] []
      (map ViewCalls
         (before ++ [EvCreateSubmission (is_update_of rule)] ++ between
            ++ [EvThreadStart (worker_of request resource file)])
       ++ [ViewReturns]).
Proof.
  intros Ht Hc Hh Hu Hf.
  rewrite (upload_view_dispatched _ _ _ _ _ _ _ Ht Hc Hh Hf).
  rewrite _success_response_run, Hu, Hh.
  exists (match rule with
          | api_upload => []
          | api_upload_update => [EvLog INFO "Checking token"; EvSetToken (Some t)]
          end ++ [EvLog INFO "Checking token"; EvSetToken (Some t);
                  EvLog INFO "Uploading spreadsheet!"]),
         [EvLog INFO ("Created Submission: " +:+ format_value (VStr url))].
  eexists. split; [reflexivity|]. split; [|split; [|split]].
  - destruct rule; simpl; rewrite ?Ht; simpl; rewrite <- ?app_assoc; reflexivity.
  - intros e He. exists INFO.
    destruct rule; simpl in He;
      repeat (apply elem_of_cons in He as [->|He];
              [first [eexists; left; reflexivity | exists ""; right; reflexivity]|]);
      apply elem_of_nil in He; destruct He.
  - intros joined He.
    destruct rule; simpl in He;
      repeat (apply elem_of_cons in He as [Heq|He]; [discriminate Heq|]);
      apply elem_of_nil in He; exact He.
  - destruct rule; simpl; exact I.
Qed.

Lemma worker_started_after_creation_and_never_joined_witness :
  exists before between w',
    @upload_view (sample_external (Return sample_submission)) api_upload
      request_with_token world_with_old_token =
      (Return
         {| response :=
              VStr (sample_dumps
                      (VDict [("message", VStr SPREADSHEET_UPLOAD_MESSAGE);
                              ("details",
                               VDict [("submission_url",
                                       VStr "http://api.ingest/submissionEnvelopes/5d1c9a");
                                      ("submission_uuid", VStr "6f2d-41c7");
                                      ("submission_id", VStr "5d1c9a")])]));
            status := 201;
            mimetype := "application/json" |}, w') /\
    trace w' =
      trace world_with_old_token ++ before ++ [EvCreateSubmission false] ++ between
        ++ [EvThreadStart (worker_of request_with_token sample_submission sample_file)] /\
    (forall e, e ∈ before ++ between ->
       exists lvl msg, e = EvLog lvl msg \/ e = EvSetToken (Some "Bearer abc")) /\
    (forall joined,
       EvThreadJoin joined ∉
         before ++ [EvCreateSubmission false] ++ between
           ++ [EvThreadStart (worker_of request_with_token sample_submission sample_file)]) /\
    can_happen [] []
      (map ViewCalls
         (before ++ [EvCreateSubmission false] ++ between
            ++ [EvThreadStart (worker_of request_with_token sample_submission sample_file)])
       ++ [ViewReturns]).
Proof.
  apply (@worker_started_after_creation_and_never_joined
           (sample_external (Return sample_submission)) api_upload request_with_token
           world_with_old_token "Bearer abc" sample_submission (VStr "6f2d-41c7")
           "http://api.ingest/submissionEnvelopes/5d1c9a" sample_file);
    vm_compute; reflexivity.
Defined.

(** In these terms a view that joined its worker would have to wait: the
    join cannot happen before the worker has ended. *)
Lemma a_join_would_wait (t : Thread) :
  ~ can_happen [] [] [ViewCalls (EvThreadStart t); ViewCalls (EvThreadJoin t); ViewReturns] /\
  can_happen [] []
    [ViewCalls (EvThreadStart t); WorkerEnds t; ViewCalls (EvThreadJoin t); ViewReturns].
Proof.
  split; simpl.
  - intros [Hin _]. apply elem_of_nil in Hin. exact Hin.
  - repeat split; apply list_elem_of_here.
Qed.

(** ** The upload endpoints: errors *)

(** C6, as the code has it.  When the [try] suite of the shared body (token
    check, creation of the submission, reading of its self link, dispatch of
    the worker) raises an instance of [Exception] other than
    [SpreadsheetUploadError], the view logs the stack trace at [ERROR] level
    and answers with status 500, the fixed generic message, and the text of
    the exception as details.  This holds under both upload rules. *)
Theorem unexpected_exception_in_try_suite_gives_500 `{External} (rule : upload_rule)
    (request : Request) (w w' : World) (err : exn) :
  upload_try_suite request (is_update_of rule) (entry_world rule request w) = (Raise err, w') ->
  is_Exception err = true ->
  is_SpreadsheetUploadError err = false ->
  upload_view rule request w =
    (Return {| response :=
                 VStr (json_dumps
                         (VDict [("message", VStr SPREADSHEET_UPLOAD_MESSAGE_ERROR);
                                 ("details", VStr (str_exn err))]));
               status := 500;
               mimetype := "application/json" |},
     with_events w' [EvLog ERROR (format_exc err)]).
Proof.
  intros Hrun Hex Hne.
  destruct (headers request !! "Authorization") as [t|] eqn:Ht.
  - rewrite (upload_view_some _ _ _ _ Ht).
    apply _upload_spreadsheet_exception; assumption.
  - rewrite (upload_try_suite_none _ _ _ Ht) in Hrun.
    injection Hrun as <- _. discriminate Hne.
Qed.

Lemma unexpected_exception_in_try_suite_gives_500_witness :
  @upload_view (sample_external (Raise (OtherError "ConnectionError" "ingest is down")))
    api_upload_update request_with_token world_with_old_token =
    (Return {| response :=
                 VStr (sample_dumps
                         (VDict [("message", VStr SPREADSHEET_UPLOAD_MESSAGE_ERROR);
                                 ("details", VStr "ingest is down")]));
               status := 500;
               mimetype := "application/json" |},
     {| ingest_api_token := Some "Bearer abc";
        storage := ∅;
        trace := [EvLog INFO "Checking token"; EvSetToken (Some "Bearer abc");
                  EvLog INFO "Checking token"; EvSetToken (Some "Bearer abc");
                  EvLog INFO "Uploading spreadsheet!";
                  EvCreateSubmission true;
                  EvLog ERROR
                    "Traceback (most recent call last): ConnectionError: ingest is down"] |}).
Proof.
  apply (@unexpected_exception_in_try_suite_gives_500
           (sample_external (Raise (OtherError "ConnectionError" "ingest is down")))
           api_upload_update request_with_token world_with_old_token
           {| ingest_api_token := Some "Bearer abc";
              storage := ∅;
              trace := [EvLog INFO "Checking token"; EvSetToken (Some "Bearer abc");
                        EvLog INFO "Checking token"; EvSetToken (Some "Bearer abc");
                        EvLog INFO "Uploading spreadsheet!";
                        EvCreateSubmission true] |}
           (OtherError "ConnectionError" "ingest is down"));
    vm_compute; reflexivity.
Defined.

(** Two exceptions the handlers do not catch.  One is raised after the
    [try] suite: the ingest client hands back a resource without [uuid], the
    worker is started, and the [KeyError] of [_success_response] leaves the
    view with no response built and nothing logged at [ERROR] level.  The
    other is raised inside the [try] suite but is no instance of
    [Exception]: a [SystemExit] out of the ingest client passes both
    [except] clauses, again with no response and nothing logged. *)
Lemma exceptions_the_handlers_do_not_catch :
  ((@upload_view (sample_external (Return submission_without_uuid)) api_upload
      request_with_token world_with_old_token).1 = Raise (KeyError "uuid") /\
   is_SpreadsheetUploadError (KeyError "uuid") = false /\
   no_error_logged
     (trace (@upload_view (sample_external (Return submission_without_uuid)) api_upload
               request_with_token world_with_old_token).2) = true /\
   EvThreadStart (worker_of request_with_token submission_without_uuid sample_file)
     ∈ trace (@upload_view (sample_external (Return submission_without_uuid)) api_upload
                request_with_token world_with_old_token).2)
  /\
  ((@upload_view (sample_external (Raise (NonException "SystemExit" "1"))) api_upload
      request_with_token world_with_old_token).1 = Raise (NonException "SystemExit" "1") /\
   (@upload_try_suite (sample_external (Raise (NonException "SystemExit" "1")))
      request_with_token false world_with_old_token).1 =
     Raise (NonException "SystemExit" "1") /\
   is_SpreadsheetUploadError (NonException "SystemExit" "1") = false /\
   no_error_logged
     (trace (@upload_view (sample_external (Raise (NonException "SystemExit" "1"))) api_upload
               request_with_token world_with_old_token).2) = true).
Proof.
  split.
  - split; [vm_compute; reflexivity|].
    split; [reflexivity|].
    split; [vm_compute; reflexivity|].
    vm_compute. repeat constructor.
  - split; [vm_compute; reflexivity|].
    split; [vm_compute; reflexivity|].
    split; [reflexivity|].
    vm_compute. reflexivity.
Qed.

(** C7.  A [SpreadsheetUploadError] raised inside the [try] suite of the
    shared body is answered with its own [http_code], [message] and
    [details]; the one raised for a missing token by the first token check
    of the update view is raised outside the [try] and leaves the view
    unanswered, with the token of the shared client already reset. *)
Theorem upload_error_response_and_its_gap `{External} :
  (forall (request : Request) (is_update : bool) (w w' : World) (c : Z) (m d : value),
     upload_try_suite request is_update w = (Raise (SpreadsheetUploadError c m d), w') ->
     _upload_spreadsheet request is_update w =
       (Return {| response := VStr (json_dumps (VDict [("message", m); ("details", d)]));
                  status := c;
                  mimetype := "application/json" |}, w'))
  /\
  (forall (request : Request) (w : World),
     headers request !! "Authorization" = None ->
     exists c m d,
       (_set_token request w).1 = Raise (SpreadsheetUploadError c m d) /\
       upload_view api_upload_update request w =
         (Raise (SpreadsheetUploadError c m d), token_checked None w)).
Proof.
  split.
  - intros request is_update w w' c m d Hrun.
    apply _upload_spreadsheet_upload_error. exact Hrun.
  - intros request w Ht. eexists _, _, _. simpl.
    rewrite (_set_token_none _ _ Ht), (upload_update_spreadsheet_none _ _ Ht).
    split; reflexivity.
Qed.

(** C1.  A request without an [Authorization] header gets the 401 response
    from [/api_upload]: the message says that a token must be supplied and
    the details are the empty string.  Under [/api_upload_update] the same
    request raises that error in the first token check, outside the [try],
    so the view returns no response. *)
Theorem missing_token_per_rule `{External} (request : Request) (w : World) :
  headers request !! "Authorization" = None ->
  upload_view api_upload request w =
    (Return {| response :=
                 VStr (json_dumps
                         (VDict [("message",
                                  VStr "An authentication token must be supplied when uploading a spreadsheet");
                                 ("details", VStr "")]));
               status := 401;
               mimetype := "application/json" |},
     token_checked None w)
  /\
  upload_view api_upload_update request w =
    (Raise (SpreadsheetUploadError 401
              (VStr "An authentication token must be supplied when uploading a spreadsheet")
              (VStr "")),
     token_checked None w).
Proof.
  intros Ht. split; simpl.
  - apply _upload_spreadsheet_none. exact Ht.
  - apply upload_update_spreadsheet_none. exact Ht.
Qed.

Lemma missing_token_per_rule_witness :
  (exists resp w',
     @upload_view (sample_external (Return sample_submission)) api_upload
       request_without_token world_with_old_token = (Return resp, w') /\ status resp = 401)
  /\
  (exists e w',
     @upload_view (sample_external (Return sample_submission)) api_upload_update
       request_without_token world_with_old_token = (Raise e, w')).
Proof.
  destruct (@missing_token_per_rule (sample_external (Return sample_submission))
              request_without_token world_with_old_token eq_refl) as [Hupload Hupdate].
  split.
  - eexists _, _. split; [exact Hupload|reflexivity].
  - eexists _, _. exact Hupdate.
Defined.

(** C9.  [_set_token] hands the value of the [Authorization] header to the
    shared ingest client before it looks at it: whatever the request, the
    client's token afterwards is the header's value, [None] when the header
    is absent.  On the 401 path of either upload rule the token a previous
    request left on the client is therefore gone. *)
Theorem set_token_overwrites_shared_client `{External} (request : Request) (w : World) :
  ingest_api_token (_set_token request w).2 = headers request !! "Authorization" /\
  trace (_set_token request w).2 =
    trace w ++ [EvLog INFO "Checking token"; EvSetToken (headers request !! "Authorization")] /\
  (headers request !! "Authorization" = None ->
   (_set_token request w).1 = Raise missing_token_error /\
   forall rule, ingest_api_token (upload_view rule request w).2 = None).
Proof.
  rewrite _set_token_run. simpl. split; [reflexivity|]. split; [reflexivity|].
  intros Ht. rewrite Ht. split; [reflexivity|].
  intros [|]; simpl.
  - unfold upload_spreadsheet. rewrite (_upload_spreadsheet_none _ _ _ Ht). reflexivity.
  - rewrite (upload_update_spreadsheet_none _ _ Ht). reflexivity.
Qed.

Lemma set_token_overwrites_shared_client_witness :
  ingest_api_token world_with_old_token = Some "Bearer old" /\
  ingest_api_token
    (@_set_token request_without_token world_with_old_token).2 = None /\
  forall rule,
    ingest_api_token
      (@upload_view (sample_external (Return sample_submission)) rule
         request_without_token world_with_old_token).2 = None.
Proof.
  destruct (@set_token_overwrites_shared_client (sample_external (Return sample_submission))
              request_without_token world_with_old_token) as (Htok & _ & Hpath).
  split; [reflexivity|]. split; [exact Htok|].
  exact (proj2 (Hpath eq_refl)).
Defined.

(** ** The stored spreadsheet *)

(** C4.  When no spreadsheet is stored for the uuid, the view answers with
    status 404 and hands the response class a dict whose [message] names the
    uuid.  The dict is not serialised: taken as an iterable of chunks it
    sends its one key, so the body on the wire is the word [message]. *)
Theorem missing_spreadsheet_response (submission_uuid : string) (w : World) :
  storage w !! submission_uuid = None ->
  exists r,
    get_submission_spreadsheet submission_uuid w = (Return (AppResponse r), w) /\
    status r = 404 /\
    mimetype r = "application/json" /\
    response r =
      VDict [("message",
              VStr ("No spreadsheet found for submission with uuid " +:+ submission_uuid))] /\
    get_data r = Return "message".
Proof.
  intros Hnone. eexists.
  unfold get_submission_spreadsheet, retrieve, mbind, M_bind. rewrite Hnone.
  split; [reflexivity|]. repeat split.
Qed.

Lemma missing_spreadsheet_response_witness :
  exists r,
    get_submission_spreadsheet "0b9e-77aa" world_with_old_token =
      (Return (AppResponse r), world_with_old_token) /\
    status r = 404 /\
    mimetype r = "application/json" /\
    response r =
      VDict [("message", VStr "No spreadsheet found for submission with uuid 0b9e-77aa")] /\
    get_data r = Return "message".
Proof.
  apply (missing_spreadsheet_response "0b9e-77aa" world_with_old_token).
  vm_compute. reflexivity.
Defined.

(** A stored spreadsheet is sent back as an attachment under its name. *)
Lemma stored_spreadsheet_is_sent (submission_uuid : string) (w : World) (s : Spreadsheet) :
  storage w !! submission_uuid = Some s ->
  get_submission_spreadsheet submission_uuid w =
    (Return (SendFile (blob s) "application/octet-stream" true (name s)), w).
Proof.
  intros Hs. unfold get_submission_spreadsheet, retrieve, mbind, M_bind.
  rewrite Hs. reflexivity.
Qed.

(** ** The tab generator *)

Section Generator.
Import SpreadsheetGenerator.

Lemma context_to_path_string_cons (segment next : string) (rest : list string) :
  context_to_path_string (segment :: next :: rest) =
    segment +:+ "." +:+ context_to_path_string (next :: rest).
Proof. reflexivity. Qed.

(** C2.  [context_to_path_string] joins the segments of a context with
    dots: it agrees with the library join on every context, gives the empty
    string for the empty context, the segment itself for a single segment,
    puts one dot between a segment and the join of the segments after it,
    and gives [a.b.c] for the three segments [a], [b], [c]. *)
Theorem context_to_path_string_joins (context : list string) :
  context_to_path_string context = String.concat "." context /\
  context_to_path_string [] = "" /\
  (forall segment, context_to_path_string [segment] = segment) /\
  (forall segment next rest,
     context_to_path_string (segment :: next :: rest) =
       segment +:+ "." +:+ context_to_path_string (next :: rest)) /\
  context_to_path_string ["a"; "b"; "c"] = "a.b.c" /\
  context_to_path_string ["project"; "project_core"; "project_shortname"] =
    "project.project_core.project_shortname".
Proof.
  split.
  - induction context as [|segment rest IH]; [reflexivity|].
    destruct rest as [|next rest]; [reflexivity|].
    rewrite context_to_path_string_cons, IH. reflexivity.
  - repeat split.
Qed.

Lemma link_column_path (linked_type : string) :
  path (link_column linked_type) = linked_type +:+ ".biomaterial_core.biomaterial_id".
Proof. reflexivity. Qed.

(** Every linked type has its link column in the tab. *)
Lemma link_column_in_tab (spec : TypeSpec) (linked_type : string) :
  linked_type ∈ linked_types (link_spec spec) ->
  link_column linked_type ∈ columns (tab_for_type spec).
Proof.
  intros Hin. unfold tab_for_type. simpl.
  apply elem_of_app. right. apply elem_of_app. left.
  apply list_elem_of_fmap. exists linked_type. split; [reflexivity|exact Hin].
Qed.

(** C3.  For a type spec with no own fields that links to a type [T], the
    generated tab holds a link column whose path is
    [T.biomaterial_core.biomaterial_id]. *)
Theorem tab_for_type_has_link_column (spec : TypeSpec) (linked_type : string) :
  linked_type ∈ linked_types (link_spec spec) ->
  own_fields spec = [] ->
  exists column,
    column ∈ columns (tab_for_type spec) /\
    path column = linked_type +:+ ".biomaterial_core.biomaterial_id" /\
    is_link column = true.
Proof.
  intros Hin _. exists (link_column linked_type).
  split; [apply link_column_in_tab; exact Hin|].
  split; [apply link_column_path|reflexivity].
Qed.

Lemma tab_for_type_has_link_column_witness :
  exists column,
    column ∈ columns (tab_for_type
                        (mkTypeSpec "cell_suspension" [] [] false
                           {| linked_types := ["donor_organism"];
                              linked_multivalue_types := [] |})) /\
    path column = "donor_organism.biomaterial_core.biomaterial_id" /\
    is_link column = true.
Proof.
  apply (tab_for_type_has_link_column
           (mkTypeSpec "cell_suspension" [] [] false
              {| linked_types := ["donor_organism"]; linked_multivalue_types := [] |})
           "donor_organism").
  - simpl. apply list_elem_of_here.
  - reflexivity.
Defined.

End Generator.

(** * Further properties of the upload views *)

Section UploadPaths.
Context `{External}.

Lemma subscript_error (v : value) (key : string) (e : exn) :
  subscript v key = Raise e -> e = KeyError key \/ e = TypeError.
Proof.
  destruct v; simpl; try (intros [= <-]; right; reflexivity).
  induction d as [|[k v] d IH]; simpl.
  - intros [= <-]. left. reflexivity.
  - destruct (String.eqb k key); [discriminate|exact IH].
Qed.

Lemma self_href_error (resource : value) (e : exn) :
  self_href resource = Raise e -> is_SpreadsheetUploadError e = false.
Proof.
  unfold self_href, mbind, result_bind. intros Hrun.
  destruct (subscript resource "_links") as [links|e1] eqn:H1.
  - destruct (subscript links "self") as [self|e2] eqn:H2.
    + apply subscript_error in Hrun as [->| ->]; reflexivity.
    + injection Hrun as <-. apply subscript_error in H2 as [->| ->]; reflexivity.
  - injection Hrun as <-. apply subscript_error in H1 as [->| ->]; reflexivity.
Qed.

Lemma self_href_exception (resource : value) (e : exn) :
  self_href resource = Raise e -> is_Exception e = true.
Proof.
  unfold self_href, mbind, result_bind. intros Hrun.
  destruct (subscript resource "_links") as [links|e1] eqn:H1.
  - destruct (subscript links "self") as [self|e2] eqn:H2.
    + apply subscript_error in Hrun as [->| ->]; reflexivity.
    + injection Hrun as <-. apply subscript_error in H2 as [->| ->]; reflexivity.
  - injection Hrun as <-. apply subscript_error in H1 as [->| ->]; reflexivity.
Qed.

(** The shared body is its [try] suite followed by the matching clause. *)
Lemma _upload_spreadsheet_clauses (request : Request) (is_update : bool) (w : World) :
  _upload_spreadsheet request is_update w =
    match upload_try_suite request is_update w with
    | (Return resource, w') => _success_response resource w'
    | (Raise err, w') => upload_except err w'
    end.
Proof.
  unfold _upload_spreadsheet, try_except_else, upload_except.
  destruct (upload_try_suite request is_update w) as [[resource|err] w'];
    [reflexivity|destruct err; reflexivity].
Qed.

(** Every path of an upload view for a request that carries a token. *)
Lemma upload_view_run (rule : upload_rule) (request : Request) (w : World) (t : string) :
  headers request !! "Authorization" = Some t ->
  upload_view rule request w =
    match create_submission (is_update_of rule) (Some t) with
    | Raise err =>
        upload_except err
          (with_events (suite_world rule request t w) [EvCreateSubmission (is_update_of rule)])
    | Return resource =>
        match self_href resource with
        | Raise err =>
            upload_except err
              (with_events (suite_world rule request t w)
                 [EvCreateSubmission (is_update_of rule)])
        | Return href =>
            match files request !! "file" with
            | None =>
                upload_except (BadRequestKeyError "file")
                  (with_events (suite_world rule request t w)
                     [EvCreateSubmission (is_update_of rule);
                      EvLog INFO ("Created Submission: " +:+ format_value href)])
            | Some file =>
                _success_response resource
                  (with_events (suite_world rule request t w)
                     [EvCreateSubmission (is_update_of rule);
                      EvLog INFO ("Created Submission: " +:+ format_value href);
                      EvThreadStart (worker_of request resource file)])
            end
        end
    end.
Proof.
  intros Ht. rewrite (upload_view_some _ _ _ _ Ht), _upload_spreadsheet_clauses.
  rewrite (upload_try_suite_some _ _ _ _ Ht), _async_upload_run.
  fold (suite_world rule request t w).
  replace (ingest_api_token (suite_world rule request t w)) with (Some t) by reflexivity.
  destruct (create_submission (is_update_of rule) (Some t)) as [resource|err]; [|reflexivity].
  destruct (self_href resource) as [href|err]; [|reflexivity].
  destruct (files request !! "file") as [file|]; reflexivity.
Qed.

(** What the generic [except] clause does with an [Exception] that is no
    upload error. *)
Lemma upload_except_generic (err : exn) (w : World) :
  is_Exception err = true ->
  is_SpreadsheetUploadError err = false ->
  upload_except err w =
    (Return {| response :=
                 VStr (json_dumps
                         (VDict [("message", VStr SPREADSHEET_UPLOAD_MESSAGE_ERROR);
                                 ("details", VStr (str_exn err))]));
               status := 500;
               mimetype := "application/json" |},
     with_events w [EvLog ERROR (format_exc err)]).
Proof.
  intros Hex Hne. destruct err; try discriminate Hne; try discriminate Hex; reflexivity.
Qed.

End UploadPaths.

Section UploadCalls.
Context `{External}.

Lemma upload_except_world (err : exn) (w : World) :
  (upload_except err w).2 = with_events w (error_log err).
Proof.
  destruct w as [tok st tr]. destruct err; unfold error_log, with_events; simpl;
    rewrite ?app_nil_r; reflexivity.
Qed.

Lemma _success_response_world (resource : value) (w : World) :
  (_success_response resource w).2 = w.
Proof. rewrite _success_response_run. reflexivity. Qed.

(** The trace an upload view leaves: the calls made before the request,
    followed by the calls of the request. *)
Lemma upload_view_trace (rule : upload_rule) (request : Request) (w : World) :
  trace (upload_view rule request w).2 = trace w ++ upload_calls rule request.
Proof.
  unfold upload_calls.
  destruct (headers request !! "Authorization") as [t|] eqn:Ht.
  - rewrite (upload_view_run _ _ _ _ Ht).
    destruct (create_submission (is_update_of rule) (Some t)) as [resource|err].
    + destruct (self_href resource) as [href|err].
      * destruct (files request !! "file") as [file|].
        -- rewrite _success_response_world.
           destruct rule; simpl; rewrite ?Ht; simpl; rewrite <- ?app_assoc; reflexivity.
        -- rewrite upload_except_world.
           destruct rule; simpl; rewrite ?Ht; simpl; rewrite <- ?app_assoc; reflexivity.
      * rewrite upload_except_world.
        destruct rule; simpl; rewrite ?Ht; simpl; rewrite <- ?app_assoc; reflexivity.
    + rewrite upload_except_world.
      destruct rule; simpl; rewrite ?Ht; simpl; rewrite <- ?app_assoc; reflexivity.
  - destruct rule; simpl.
    + unfold upload_spreadsheet. rewrite (_upload_spreadsheet_none _ _ _ Ht). reflexivity.
    + rewrite (upload_update_spreadsheet_none _ _ Ht). reflexivity.
Qed.

Lemma calls_since_upload_view (rule : upload_rule) (request : Request) (w : World) :
  calls_since w (upload_view rule request w).2 = upload_calls rule request.
Proof. unfold calls_since. rewrite upload_view_trace. apply drop_app_length. Qed.

End UploadCalls.

(** ** What an upload view calls, and when *)

Ltac upload_paths rule request :=
  unfold upload_calls, error_log;
  let t := fresh "t" in
  let Ht := fresh "Ht" in
  let Hc := fresh "Hc" in
  let Hh := fresh "Hh" in
  let Hf := fresh "Hf" in
  destruct (headers request !! "Authorization") as [t|] eqn:Ht;
  [destruct (create_submission (is_update_of rule) (Some t)) as [?resource|?err] eqn:Hc;
   [destruct (self_href resource) as [?href|?err] eqn:Hh;
    [destruct (files request !! "file") as [?file|] eqn:Hf
    |destruct (is_SpreadsheetUploadError err); [|destruct (is_Exception err)]]
   |destruct (is_SpreadsheetUploadError err); [|destruct (is_Exception err)]]
  |];
  destruct rule; simpl.

Ltac split_elem He :=
  repeat (apply elem_of_cons in He as [He|He]; [try discriminate He|]);
  try (apply elem_of_nil in He; destruct He).

(** X1.  A worker thread is started only for a request that carries a
    token, on the very resource the ingest client returned for it, with the
    uploaded file and the [projectUuid] form field of that request. *)
Theorem worker_only_for_created_submission `{External} (rule : upload_rule)
    (request : Request) (w : World) (started : Thread) :
  EvThreadStart started ∈ calls_since w (upload_view rule request w).2 ->
  exists t resource file,
    headers request !! "Authorization" = Some t /\
    create_submission (is_update_of rule) (Some t) = Return resource /\
    files request !! "file" = Some file /\
    started =
      {| thread_target := spreadsheet_upload_service_upload;
         thread_args := (resource, file, form request !! "projectUuid") |}.
Proof.
  rewrite calls_since_upload_view.
  upload_paths rule request; intros He; split_elem He;
    injection He as ->; eexists _, _, _; repeat split; eassumption.
Qed.

Lemma worker_only_for_created_submission_witness :
  exists t resource file,
    headers request_with_token !! "Authorization" = Some t /\
    @create_submission (sample_external (Return sample_submission)) true (Some t) =
      Return resource /\
    files request_with_token !! "file" = Some file /\
    {| thread_target := spreadsheet_upload_service_upload;
       thread_args := (sample_submission, sample_file, Some "p-1") |} =
      {| thread_target := spreadsheet_upload_service_upload;
         thread_args := (resource, file, form request_with_token !! "projectUuid") |}.
Proof.
  apply (@worker_only_for_created_submission (sample_external (Return sample_submission))
           api_upload_update request_with_token world_with_old_token).
  vm_compute. repeat constructor.
Defined.

(** X2.  Whatever the request, an upload view asks the ingest client for at
    most one submission, starts at most as many workers as it created
    submissions, and creates a submission only when the request carries a
    token, with the update flag of its rule. *)
Theorem submission_created_at_most_once `{External} (rule : upload_rule)
    (request : Request) (w : World) :
  (length (List.filter is_create_submission
             (calls_since w (upload_view rule request w).2)) <= 1)%nat /\
  (length (List.filter is_thread_start
             (calls_since w (upload_view rule request w).2)) <=
   length (List.filter is_create_submission
             (calls_since w (upload_view rule request w).2)))%nat /\
  (forall flag,
     EvCreateSubmission flag ∈ calls_since w (upload_view rule request w).2 ->
     flag = is_update_of rule /\ is_Some (headers request !! "Authorization")).
Proof.
  rewrite calls_since_upload_view.
  upload_paths rule request;
    (split; [lia|split; [lia|]]);
    intros flag He; split_elem He;
    injection He as ->; (split; [reflexivity|eexists; reflexivity]).
Qed.

(** X3.  Every call to [set_token] an upload view makes passes the value of
    the request's [Authorization] header, and with no header the two token
    calls are all the view does: no submission is asked for and no worker
    started. *)
Theorem token_calls_carry_the_header `{External} (rule : upload_rule)
    (request : Request) (w : World) :
  (forall token,
     EvSetToken token ∈ calls_since w (upload_view rule request w).2 ->
     token = headers request !! "Authorization") /\
  (headers request !! "Authorization" = None ->
   calls_since w (upload_view rule request w).2 =
     [EvLog INFO "Checking token"; EvSetToken None]).
Proof.
  rewrite calls_since_upload_view. split.
  - intros token.
    upload_paths rule request; intros He; split_elem He;
      injection He as ->; reflexivity.
  - intros Hnone. unfold upload_calls. rewrite Hnone. reflexivity.
Qed.

(** ** What an upload view answers *)

Section UploadAnswers.
Context `{External}.

Lemma upload_except_returns (err : exn) (w w' : World) (resp : Response) :
  upload_except err w = (Return resp, w') ->
  mimetype resp = "application/json" /\
  (exists message details,
     response resp = VStr (json_dumps (VDict [("message", message); ("details", details)]))) /\
  (status resp = 500 \/ exists m d, err = SpreadsheetUploadError (status resp) m d).
Proof.
  destruct err; simpl; intros Hrun; try discriminate Hrun;
    injection Hrun as <- _;
    (split; [reflexivity|]); (split; [eexists _, _; reflexivity|]);
    first [left; reflexivity | right; eexists _, _; reflexivity].
Qed.

Lemma upload_except_raises (err e : exn) (w w' : World) :
  upload_except err w = (Raise e, w') ->
  e = err /\ is_Exception e = false /\ is_SpreadsheetUploadError e = false /\ w' = w.
Proof.
  destruct err; simpl; intros Hrun; try discriminate Hrun.
  injection Hrun as <- <-. repeat split.
Qed.

End UploadAnswers.

(** X4.  Every response an upload view returns is [application/json] with
    a body of exactly the two keys [message] and [details]; its status is
    201, or 500, or 401 when the request has no token, or the code carried
    by an upload error that the ingest client raised while creating the
    submission. *)
Theorem upload_response_shape_and_status `{External} (rule : upload_rule)
    (request : Request) (w w' : World) (resp : Response) :
  upload_view rule request w = (Return resp, w') ->
  mimetype resp = "application/json" /\
  (exists message details,
     response resp = VStr (json_dumps (VDict [("message", message); ("details", details)]))) /\
  (status resp = 201 \/
   status resp = 500 \/
   (status resp = 401 /\ headers request !! "Authorization" = None) \/
   (exists t m d,
      headers request !! "Authorization" = Some t /\
      create_submission (is_update_of rule) (Some t) =
        Raise (SpreadsheetUploadError (status resp) m d))).
Proof.
  intros Hrun.
  destruct (headers request !! "Authorization") as [t|] eqn:Ht.
  - rewrite (upload_view_run _ _ _ _ Ht) in Hrun.
    destruct (create_submission (is_update_of rule) (Some t)) as [resource|err] eqn:Hc.
    + destruct (self_href resource) as [href|err] eqn:Hh.
      * destruct (files request !! "file") as [file|].
        -- apply _success_response_returns in Hrun as (url & u & _ & _ & -> & _).
           split; [reflexivity|]. split; [eexists _, _; reflexivity|].
           left. reflexivity.
        -- apply upload_except_returns in Hrun as (Hm & Hb & [Hs|(m & d & Hs)]);
             [|discriminate Hs].
           split; [exact Hm|]. split; [exact Hb|]. right. left. exact Hs.
      * pose proof (self_href_exception _ _ Hh) as Hex. apply self_href_error in Hh.
        rewrite (upload_except_generic _ _ Hex Hh) in Hrun. injection Hrun as <- _.
        split; [reflexivity|]. split; [eexists _, _; reflexivity|].
        right. left. reflexivity.
    + apply upload_except_returns in Hrun as (Hm & Hb & Hs).
      split; [exact Hm|]. split; [exact Hb|].
      destruct Hs as [Hs|(m & d & ->)].
      * right. left. exact Hs.
      * right. right. right. exists t, m, d. split; [reflexivity|exact Hc].
  - destruct rule; simpl in Hrun.
    + unfold upload_spreadsheet in Hrun.
      rewrite (_upload_spreadsheet_none _ _ _ Ht) in Hrun. injection Hrun as <- _.
      split; [reflexivity|]. split; [eexists _, _; reflexivity|].
      right. right. left. split; reflexivity.
    + rewrite (upload_update_spreadsheet_none _ _ Ht) in Hrun. discriminate Hrun.
Qed.

Lemma upload_response_shape_and_status_witness :
  exists t m d,
    headers request_with_token !! "Authorization" = Some t /\
    @create_submission
      (sample_external (Raise (SpreadsheetUploadError 409 (VStr "conflict") (VStr "busy"))))
      false (Some t) = Raise (SpreadsheetUploadError 409 m d).
Proof.
  destruct (@upload_response_shape_and_status
              (sample_external (Raise (SpreadsheetUploadError 409 (VStr "conflict") (VStr "busy"))))
              api_upload request_with_token world_with_old_token
              {| ingest_api_token := Some "Bearer abc";
                 storage := ∅;
                 trace := [EvLog INFO "Checking token"; EvSetToken (Some "Bearer abc");
                           EvLog INFO "Uploading spreadsheet!"; EvCreateSubmission false] |}
              {| response :=
                   VStr (sample_dumps
                           (VDict [("message", VStr "conflict"); ("details", VStr "busy")]));
                 status := 409;
                 mimetype := "application/json" |})
    as (_ & _ & [Hs|[Hs|[[Hs _]|Hrelay]]]);
    [vm_compute; reflexivity|discriminate Hs|discriminate Hs|discriminate Hs|exact Hrelay].
Defined.

(** ** Failures around the creation of the submission *)

(** X5.  An upload error raised by the ingest client while it creates the
    submission is relayed as it is: the response carries its code, message
    and details, nothing is logged at [ERROR] level and no worker is
    started. *)
Theorem ingest_upload_error_is_relayed `{External} (rule : upload_rule)
    (request : Request) (w : World) (t : string) (c : Z) (m d : value) :
  headers request !! "Authorization" = Some t ->
  create_submission (is_update_of rule) (Some t) = Raise (SpreadsheetUploadError c m d) ->
  (upload_view rule request w).1 =
    Return {| response := VStr (json_dumps (VDict [("message", m); ("details", d)]));
              status := c;
              mimetype := "application/json" |} /\
  no_error_logged (calls_since w (upload_view rule request w).2) = true /\
  List.filter is_thread_start (calls_since w (upload_view rule request w).2) = [].
Proof.
  intros Ht Hc. split.
  - rewrite (upload_view_run _ _ _ _ Ht), Hc. reflexivity.
  - rewrite calls_since_upload_view. unfold upload_calls. rewrite Ht, Hc.
    destruct rule; split; reflexivity.
Qed.

Lemma ingest_upload_error_is_relayed_witness :
  (@upload_view
     (sample_external (Raise (SpreadsheetUploadError 409 (VStr "conflict") (VStr "busy"))))
     api_upload_update request_with_token world_with_old_token).1 =
    Return {| response :=
                VStr (sample_dumps
                        (VDict [("message", VStr "conflict"); ("details", VStr "busy")]));
              status := 409;
              mimetype := "application/json" |}.
Proof.
  refine (proj1 (@ingest_upload_error_is_relayed
                   (sample_external
                      (Raise (SpreadsheetUploadError 409 (VStr "conflict") (VStr "busy"))))
                   api_upload_update request_with_token world_with_old_token
                   "Bearer abc" 409 (VStr "conflict") (VStr "busy") _ _));
    vm_compute; reflexivity.
Defined.

(** X6.  A request that carries a token but no [file] part is answered
    with the generic 500, not with a 400: the missing key is raised after the
    ingest client has created the submission, so that submission exists and
    no worker is ever started on it. *)
Theorem missing_file_is_a_500_after_creation `{External} (rule : upload_rule)
    (request : Request) (w : World) (t : string) (resource href : value) :
  headers request !! "Authorization" = Some t ->
  create_submission (is_update_of rule) (Some t) = Return resource ->
  self_href resource = Return href ->
  files request !! "file" = None ->
  (upload_view rule request w).1 =
    Return {| response :=
                VStr (json_dumps
                        (VDict [("message", VStr SPREADSHEET_UPLOAD_MESSAGE_ERROR);
                                ("details", VStr (str_exn (BadRequestKeyError "file")))]));
              status := 500;
              mimetype := "application/json" |} /\
  EvCreateSubmission (is_update_of rule) ∈ calls_since w (upload_view rule request w).2 /\
  EvLog ERROR (format_exc (BadRequestKeyError "file"))
    ∈ calls_since w (upload_view rule request w).2 /\
  List.filter is_thread_start (calls_since w (upload_view rule request w).2) = [].
Proof.
  intros Ht Hc Hh Hf. split.
  - rewrite (upload_view_run _ _ _ _ Ht), Hc, Hh, Hf. reflexivity.
  - rewrite calls_since_upload_view. unfold upload_calls. rewrite Ht, Hc, Hh, Hf.
    destruct rule; simpl; (split; [|split; [|reflexivity]]);
      repeat first [apply list_elem_of_here | apply list_elem_of_further].
Qed.

Lemma missing_file_is_a_500_after_creation_witness :
  (@upload_view (sample_external (Return sample_submission)) api_upload
     {| headers := {[ "Authorization" := "Bearer abc" ]}; files := ∅; form := ∅ |}
     world_with_old_token).1 =
    Return {| response :=
                VStr (sample_dumps
                        (VDict [("message", VStr SPREADSHEET_UPLOAD_MESSAGE_ERROR);
                                ("details", VStr "")]));
              status := 500;
              mimetype := "application/json" |}.
Proof.
  refine (proj1 (@missing_file_is_a_500_after_creation
                   (sample_external (Return sample_submission)) api_upload
                   {| headers := {[ "Authorization" := "Bearer abc" ]};
                      files := ∅; form := ∅ |}
                   world_with_old_token "Bearer abc" sample_submission
                   (VStr "http://api.ingest/submissionEnvelopes/5d1c9a") _ _ _ _));
    vm_compute; reflexivity.
Defined.

(** X7.  When the resource the ingest client returns has no readable
    [_links.self.href], the view answers with the generic 500 carrying the
    text of the [KeyError] or [TypeError]; the submission has been created
    by then and no worker is started. *)
Theorem unreadable_self_link_is_a_500 `{External} (rule : upload_rule)
    (request : Request) (w : World) (t : string) (resource : value) (err : exn) :
  headers request !! "Authorization" = Some t ->
  create_submission (is_update_of rule) (Some t) = Return resource ->
  self_href resource = Raise err ->
  (upload_view rule request w).1 =
    Return {| response :=
                VStr (json_dumps
                        (VDict [("message", VStr SPREADSHEET_UPLOAD_MESSAGE_ERROR);
                                ("details", VStr (str_exn err))]));
              status := 500;
              mimetype := "application/json" |} /\
  (err = TypeError \/ exists key, err = KeyError key /\ key ∈ ["_links"; "self"; "href"]) /\
  EvCreateSubmission (is_update_of rule) ∈ calls_since w (upload_view rule request w).2 /\
  List.filter is_thread_start (calls_since w (upload_view rule request w).2) = [].
Proof.
  intros Ht Hc Hh. pose proof (self_href_error _ _ Hh) as Hne.
  pose proof (self_href_exception _ _ Hh) as Hex. split; [|split].
  - rewrite (upload_view_run _ _ _ _ Ht), Hc, Hh, (upload_except_generic _ _ Hex Hne).
    reflexivity.
  - unfold self_href, mbind, result_bind in Hh.
    destruct (subscript resource "_links") as [links|e1] eqn:H1.
    + destruct (subscript links "self") as [self|e2] eqn:H2.
      * apply subscript_error in Hh as [->| ->]; [right|left; reflexivity].
        eexists. split; [reflexivity|]. do 2 apply list_elem_of_further.
        apply list_elem_of_here.
      * injection Hh as <-. apply subscript_error in H2 as [->| ->]; [right|left; reflexivity].
        eexists. split; [reflexivity|]. apply list_elem_of_further, list_elem_of_here.
    + injection Hh as <-. apply subscript_error in H1 as [->| ->]; [right|left; reflexivity].
      eexists. split; [reflexivity|]. apply list_elem_of_here.
  - rewrite calls_since_upload_view. unfold upload_calls, error_log.
    rewrite Ht, Hc, Hh, Hne, Hex.
    destruct rule; simpl; (split; [|reflexivity]);
      repeat first [apply list_elem_of_here | apply list_elem_of_further].
Qed.

Lemma unreadable_self_link_is_a_500_witness :
  (@upload_view (sample_external (Return (VDict [("uuid", VStr "6f2d-41c7")]))) api_upload
     request_with_token world_with_old_token).1 =
    Return {| response :=
                VStr (sample_dumps
                        (VDict [("message", VStr SPREADSHEET_UPLOAD_MESSAGE_ERROR);
                                ("details", VStr "'_links'")]));
              status := 500;
              mimetype := "application/json" |}.
Proof.
  refine (proj1 (@unreadable_self_link_is_a_500
                   (sample_external (Return (VDict [("uuid", VStr "6f2d-41c7")]))) api_upload
                   request_with_token world_with_old_token "Bearer abc"
                   (VDict [("uuid", VStr "6f2d-41c7")]) (KeyError "_links") _ _ _));
    vm_compute; reflexivity.
Defined.

(** ** What can leave a view *)

Lemma uuid_of_error (resource : value) (e : exn) :
  uuid_of resource = Raise e -> is_SpreadsheetUploadError e = false.
Proof.
  unfold uuid_of, mbind, result_bind. intros Hrun.
  destruct (subscript resource "uuid") as [uuid_field|e1] eqn:H1.
  - apply subscript_error in Hrun as [->| ->]; reflexivity.
  - injection Hrun as <-. apply subscript_error in H1 as [->| ->]; reflexivity.
Qed.

Lemma _success_response_error `{External} (resource : value) (w w' : World) (e : exn) :
  _success_response resource w = (Raise e, w') ->
  is_SpreadsheetUploadError e = false /\ e <> IndexError /\ w' = w.
Proof.
  rewrite _success_response_run. intros Hrun.
  destruct (uuid_of resource) as [u|e1] eqn:Hu.
  - destruct (self_href resource) as [href|e2] eqn:Hh.
    + destruct href; try discriminate Hrun;
        injection Hrun as <- <-; repeat split; discriminate.
    + injection Hrun as <- <-. split; [exact (self_href_error _ _ Hh)|].
      split; [|reflexivity]. intros ->.
      unfold self_href, mbind, result_bind in Hh.
      destruct (subscript resource "_links") as [links|e1] eqn:H1.
      * destruct (subscript links "self") as [self|e3] eqn:H2.
        -- apply subscript_error in Hh as [Hh|Hh]; discriminate Hh.
        -- injection Hh as ->. apply subscript_error in H2 as [H2|H2]; discriminate H2.
      * injection Hh as ->. apply subscript_error in H1 as [H1|H1]; discriminate H1.
  - injection Hrun as <- <-. split; [exact (uuid_of_error _ _ Hu)|].
    split; [|reflexivity]. intros ->.
    unfold uuid_of, mbind, result_bind in Hu.
    destruct (subscript resource "uuid") as [uuid_field|e1] eqn:H1.
    + apply subscript_error in Hu as [Hu|Hu]; discriminate Hu.
    + injection Hu as ->. apply subscript_error in H1 as [H1|H1]; discriminate H1.
Qed.

(** X9.  An instance of [Exception] leaves an upload view in two
    situations only: the missing-token error of the first token check of
    [/api_upload_update], with nothing done but that check; or an exception
    other than an upload error raised while the success response is built,
    by which time the worker thread has been started. *)
Theorem what_can_leave_an_upload_view `{External} (rule : upload_rule)
    (request : Request) (w w' : World) (e : exn) :
  upload_view rule request w = (Raise e, w') ->
  is_Exception e = true ->
  (rule = api_upload_update /\
   headers request !! "Authorization" = None /\
   e = missing_token_error /\
   calls_since w w' = [EvLog INFO "Checking token"; EvSetToken None])
  \/
  (is_SpreadsheetUploadError e = false /\
   exists started, EvThreadStart started ∈ calls_since w w').
Proof.
  intros Hrun Hex.
  assert (Hcalls : calls_since w w' = upload_calls rule request).
  { rewrite <- (calls_since_upload_view rule request w), Hrun. reflexivity. }
  rewrite Hcalls. unfold upload_calls.
  destruct (headers request !! "Authorization") as [t|] eqn:Ht.
  - right. rewrite (upload_view_run _ _ _ _ Ht) in Hrun.
    destruct (create_submission (is_update_of rule) (Some t)) as [resource|err].
    + destruct (self_href resource) as [href|err].
      * destruct (files request !! "file") as [file|].
        -- apply _success_response_error in Hrun as (Hne & _ & _).
           split; [exact Hne|]. eexists.
           destruct rule; simpl;
             repeat first [apply list_elem_of_here | apply list_elem_of_further].
        -- apply upload_except_raises in Hrun as (_ & Hno & _).
           rewrite Hno in Hex. discriminate Hex.
      * apply upload_except_raises in Hrun as (_ & Hno & _).
        rewrite Hno in Hex. discriminate Hex.
    + apply upload_except_raises in Hrun as (_ & Hno & _).
      rewrite Hno in Hex. discriminate Hex.
  - destruct rule; simpl in Hrun.
    + unfold upload_spreadsheet in Hrun.
      rewrite (_upload_spreadsheet_none _ _ _ Ht) in Hrun. discriminate Hrun.
    + rewrite (upload_update_spreadsheet_none _ _ Ht) in Hrun.
      injection Hrun as <- _. left. repeat split.
Qed.

Lemma what_can_leave_an_upload_view_witness :
  (api_upload = api_upload_update /\
   headers request_with_token !! "Authorization" = None /\
   KeyError "uuid" = missing_token_error /\
   calls_since world_with_old_token
     (@upload_view (sample_external (Return submission_without_uuid)) api_upload
        request_with_token world_with_old_token).2 =
     [EvLog INFO "Checking token"; EvSetToken None])
  \/
  (is_SpreadsheetUploadError (KeyError "uuid") = false /\
   exists started,
     EvThreadStart started ∈
       calls_since world_with_old_token
         (@upload_view (sample_external (Return submission_without_uuid)) api_upload
            request_with_token world_with_old_token).2).
Proof.
  apply (@what_can_leave_an_upload_view (sample_external (Return submission_without_uuid))
           api_upload request_with_token world_with_old_token).
  - vm_compute. reflexivity.
  - reflexivity.
Defined.

(** ** The success response and the submission id *)

(** X10.  [_success_response] returns a response exactly when the resource
    carries [uuid.uuid] and a string [_links.self.href]; otherwise it raises,
    never an [IndexError] (the split always has a last piece), and in every
    case it leaves the world as it found it. *)
Theorem success_response_needs_uuid_and_string_link `{External} (resource : value)
    (w : World) :
  ((exists resp, (_success_response resource w).1 = Return resp) <->
   (exists submission_uuid url,
      uuid_of resource = Return submission_uuid /\
      self_href resource = Return (VStr url))) /\
  (_success_response resource w).1 <> Raise IndexError /\
  (_success_response resource w).2 = w.
Proof.
  split; [|split].
  - split.
    + intros [resp Hresp].
      destruct (_success_response resource w) as [out w'] eqn:Hrun. simpl in Hresp. subst out.
      apply _success_response_returns in Hrun as (url & u & Hh & Hu & _ & _).
      exists u, url. split; assumption.
    + intros (u & url & Hu & Hh). rewrite _success_response_run, Hu, Hh.
      eexists. reflexivity.
  - intros Hidx.
    destruct (_success_response resource w) as [out w'] eqn:Hrun. simpl in Hidx. subst out.
    apply _success_response_error in Hrun as (_ & Hne & _). apply Hne. reflexivity.
  - apply _success_response_world.
Qed.

(** X11.  A self link that ends in a slash gives an empty [submission_id]
    in the success response. *)
Theorem trailing_slash_gives_empty_submission_id `{External} (resource : value)
    (w : World) (submission_uuid : value) (prefix : string) :
  uuid_of resource = Return submission_uuid ->
  self_href resource = Return (VStr (prefix +:+ "/")) ->
  _success_response resource w =
    (Return
       {| response :=
            VStr (json_dumps
                    (VDict [("message", VStr SPREADSHEET_UPLOAD_MESSAGE);
                            ("details",
                             VDict [("submission_url", VStr (prefix +:+ "/"));
                                    ("submission_uuid", submission_uuid);
                                    ("submission_id", VStr "")])]));
          status := 201;
          mimetype := "application/json" |}, w).
Proof.
  intros Hu Hh. rewrite _success_response_run, Hu, Hh.
  unfold success_response_of.
  rewrite (last_segment_app "/" prefix "" eq_refl). reflexivity.
Qed.

Lemma trailing_slash_gives_empty_submission_id_witness :
  exists w',
    @_success_response (sample_external (Return VNone))
      (VDict [("uuid", VDict [("uuid", VStr "6f2d-41c7")]);
              ("_links", VDict [("self", VDict [("href", VStr "http://api.ingest/envelopes/")])])])
      world_with_old_token =
    (Return
       {| response :=
            VStr (sample_dumps
                    (VDict [("message", VStr SPREADSHEET_UPLOAD_MESSAGE);
                            ("details",
                             VDict [("submission_url", VStr "http://api.ingest/envelopes/");
                                    ("submission_uuid", VStr "6f2d-41c7");
                                    ("submission_id", VStr "")])]));
          status := 201;
          mimetype := "application/json" |}, w').
Proof.
  eexists.
  apply (@trailing_slash_gives_empty_submission_id (sample_external (Return VNone))
           (VDict [("uuid", VDict [("uuid", VStr "6f2d-41c7")]);
                   ("_links",
                    VDict [("self", VDict [("href", VStr "http://api.ingest/envelopes/")])])])
           world_with_old_token (VStr "6f2d-41c7") "http://api.ingest/envelopes");
    vm_compute; reflexivity.
Defined.

(** X12.  [s.rsplit(sep, 1)] loses nothing: joining its pieces with the
    separator gives [s] back; there are one or two pieces, two exactly when
    the separator occurs in [s], and the last piece never holds it. *)
Theorem rsplit1_rejoins (sep : ascii) (s : string) :
  String.concat (String sep "") (rsplit1 sep s) = s /\
  (length (rsplit1 sep s) = if no_char sep s then 1%nat else 2%nat) /\
  (forall piece, last (rsplit1 sep s) = Some piece -> no_char sep piece = true).
Proof.
  unfold rsplit1. destruct (rsplit_once sep s) as [[a b]|] eqn:Hr.
  - pose proof (rsplit_once_Some _ _ _ _ Hr) as [-> Hb].
    split; [reflexivity|]. split.
    + destruct (no_char sep (a +:+ String sep b)) eqn:Hn; [|reflexivity].
      apply rsplit_once_None in Hn. rewrite Hn in Hr. discriminate Hr.
    + intros piece [= <-]. exact Hb.
  - apply rsplit_once_None in Hr. rewrite Hr.
    split; [reflexivity|]. split; [reflexivity|].
    intros piece [= <-]. exact Hr.
Qed.

(** ** The index view *)

(** X13.  [GET /] redirects with 302 to [INGEST_UI] exactly when that
    variable is set to a non-empty value; unset or empty, the view answers
    200 with the liveness message as JSON. *)
Theorem index_redirects_iff_ui_is_configured `{External} (environ : gmap string string) :
  (forall url,
     environ !! "INGEST_UI" = Some url -> url <> "" ->
     index environ = IndexRedirect url 302) /\
  (environ !! "INGEST_UI" = None \/ environ !! "INGEST_UI" = Some "" ->
   index environ =
     IndexResponse
       {| response := VStr (json_dumps (VDict [("message", VStr "Ingest Broker API is running!")]));
          status := 200;
          mimetype := "application/json" |}) /\
  ((exists location code, index environ = IndexRedirect location code) <->
   (exists url, environ !! "INGEST_UI" = Some url /\ url <> "")).
Proof.
  unfold index. split; [|split].
  - intros url -> Hne. destruct url; [contradiction Hne; reflexivity|reflexivity].
  - intros [-> | ->]; reflexivity.
  - split.
    + intros (location & code & Hrun).
      destruct (environ !! "INGEST_UI") as [[|c rest]|]; try discriminate Hrun.
      eexists. split; [reflexivity|discriminate].
    + intros (url & -> & Hne).
      destruct url; [contradiction Hne; reflexivity|]. eexists _, _. reflexivity.
Qed.
